(** * ao-mcp-server: tool executors, dispatch and result envelopes

    A shallow embedding of the five tool executors
    ([src/tools/query-process.ts], [send-message.ts], [spawn-process.ts],
    [eval-lua.ts], [list-results.ts]) and of the dispatcher
    [handleToolCall] ([src/tools/index.ts]).

    An executor is an [async] function that calls the aoconnect client and
    catches what it throws.  It is embedded as a finite tree whose inner
    nodes are the client calls, in source order, and whose leaves are the
    returned envelope or the raised error.  [Async.run] plays such a tree
    against a client and records every call that was made. *)

From Stdlib Require Import String Ascii List Bool Arith ZArith Lia DecimalString.
Import ListNotations.
Local Open Scope string_scope.

(** ** JavaScript values as the executors use them *)

Module JS.

(** A string is a sequence of code units; [String.length] is [.length].
    A property that may be [undefined] at run time is an [option].
    Strings that are only measured, compared and copied are kept over the
    code units below 256; the one string whose code units are told apart,
    the code that [trim] is applied to, is a [Text] of 16-bit code units. *)

Definition nl : string := String (ascii_of_nat 10) EmptyString.
Definition dquote : string := String (ascii_of_nat 34) EmptyString.

(** [if (v)], [!v], [v ? a : b] on a string-or-undefined: [undefined] and
    the empty string are falsy. *)
Definition truthy (v : option string) : bool :=
  match v with
  | Some (String _ _) => true
  | _ => false
  end.

(** [`${v}`] *)
Definition ToString (v : option string) : string :=
  match v with
  | Some s => s
  | None => "undefined"
  end.

(** [v || d] *)
Definition or (v : option string) (d : string) : string :=
  match v with
  | Some (String c s) => String c s
  | _ => d
  end.

(** [n || d] on a number-or-undefined: [undefined] and [0] are falsy.
    Numbers are kept to the integers. *)
Definition orNumber (v : option Z) (d : Z) : Z :=
  match v with
  | Some n => if (n =? 0)%Z then d else n
  | None => d
  end.

(** [v.length], read only where [v] is known to be a string. *)
Definition length (v : option string) : nat :=
  match v with
  | Some s => String.length s
  | None => 0
  end.

(** [v === s] for a string literal [s]. *)
Definition strictEq (v : option string) (s : string) : bool :=
  match v with
  | Some x => String.eqb x s
  | None => false
  end.

(** [`${n}`] for a non-negative integer. *)
Definition numberToString (n : nat) : string :=
  NilEmpty.string_of_uint (Nat.to_uint n).

(** A string whose characters the code tells apart one by one is kept as
    its UTF-16 code units, each a number below 65536. *)
Definition Text : Type := list N.

(** The code units of a string of the 8-bit alphabet. *)
Definition units (s : string) : Text :=
  List.map N_of_ascii (list_ascii_of_string s).

(** [if (v)], [!v] on a text-or-undefined. *)
Definition truthyText (v : option Text) : bool :=
  match v with
  | Some (_ :: _) => true
  | _ => false
  end.

(** [`${v}`] on a text-or-undefined. *)
Definition ToText (v : option Text) : Text :=
  match v with
  | Some t => t
  | None => units "undefined"
  end.

(** The code units [trim] removes, WhiteSpace and LineTerminator of
    ECMAScript: TAB, LF, VT, FF, CR (U+0009 to U+000D), SP (U+0020), NBSP
    (U+00A0), U+1680, U+2000 to U+200A, LS and PS (U+2028, U+2029), U+202F,
    U+205F, U+3000 and the byte order mark U+FEFF. *)
Definition isWhiteSpace (u : N) : bool :=
  (((9 <=? u) && (u <=? 13))
   || (u =? 32) || (u =? 160) || (u =? 5760)
   || ((8192 <=? u) && (u <=? 8202))
   || (u =? 8232) || (u =? 8233) || (u =? 8239) || (u =? 8287)
   || (u =? 12288) || (u =? 65279))%N.

Fixpoint trimStart (t : Text) : Text :=
  match t with
  | u :: rest => if isWhiteSpace u then trimStart rest else t
  | [] => []
  end.

Fixpoint trimEnd (t : Text) : Text :=
  match t with
  | u :: rest =>
      match trimEnd rest with
      | [] => if isWhiteSpace u then [] else [u]
      | kept => u :: kept
      end
  | [] => []
  end.

Definition trim (t : Text) : Text := trimEnd (trimStart t).

(** [s.substring(0, n)] *)
Definition substring0 (n : nat) (s : string) : string := String.substring 0 n s.

(** [hay.includes(needle)] *)
Fixpoint includes (needle hay : string) : bool :=
  String.prefix needle hay ||
  match hay with
  | String _ rest => includes needle rest
  | EmptyString => false
  end.

(** [xs.join(sep)] *)
Definition join (sep : string) (xs : list string) : string := String.concat sep xs.

(** [xs.map((x, index) => f(x, index))] *)
Fixpoint mapiFrom {A B : Type} (i : nat) (f : A -> nat -> B) (xs : list A) : list B :=
  match xs with
  | [] => []
  | x :: rest => f x i :: mapiFrom (S i) f rest
  end.

Definition mapi {A B : Type} (f : A -> nat -> B) (xs : list A) : list B :=
  mapiFrom 0 f xs.

(** What a [catch] clause binds: an [Error] object with its [message], or
    any other thrown value. *)
Inductive Thrown : Type :=
| ErrorObject (message : string)
| OtherValue.

(** [error instanceof Error ? error.message : "Unknown error"] *)
Definition errorMessage (error : Thrown) : string :=
  match error with
  | ErrorObject message => message
  | OtherValue => "Unknown error"
  end.

End JS.

(** ** Asynchronous programs over an external client *)

Module Async.

Inductive Settled (R : Type) : Type :=
| Fulfilled (r : R)
| Rejected (e : JS.Thrown).
Arguments Fulfilled {R} r.
Arguments Rejected {R} e.

Inductive Completion (A : Type) : Type :=
| Returned (a : A)
| Raised (e : JS.Thrown).
Arguments Returned {A} a.
Arguments Raised {A} e.

Section WithClient.
(** [E R] is a call of the client whose result has type [R]. *)
Context {E : Type -> Type}.

Inductive t (A : Type) : Type :=
| Return (a : A)
| Throw (e : JS.Thrown)
| Call {R : Type} (c : E R) (k : Settled R -> t A).
Arguments Return {A} a.
Arguments Throw {A} e.
Arguments Call {A R} c k.

(** [await c], and a synchronous call [c] alike: the value, or the
    rejection rethrown at the call site. *)
Definition await {R : Type} (c : E R) : t R :=
  Call c (fun s => match s with
                   | Fulfilled r => Return r
                   | Rejected e => Throw e
                   end).

Fixpoint bind {A B : Type} (p : t A) (f : A -> t B) : t B :=
  match p with
  | Return a => f a
  | Throw e => Throw e
  | Call c k => Call c (fun s => bind (k s) f)
  end.

(** [try { p } catch (error) { handler(error) }] *)
Fixpoint tryCatch {A : Type} (p : t A) (handler : JS.Thrown -> t A) : t A :=
  match p with
  | Return a => Return a
  | Throw e => handler e
  | Call c k => Call c (fun s => tryCatch (k s) handler)
  end.

(** A call that was made, whatever its result type. *)
Inductive Invocation : Type :=
| Invoked {R : Type} (c : E R).

(** The client: how each call settles. *)
Definition Client : Type := forall R : Type, E R -> Settled R.

(** Run a program against a client; the calls made, first to last. *)
Fixpoint run {A : Type} (client : Client) (p : t A) : Completion A * list Invocation :=
  match p with
  | Return a => (Returned a, [])
  | Throw e => (Raised e, [])
  | Call c k =>
      let (completion, calls) := run client (k (client _ c)) in
      (completion, Invoked c :: calls)
  end.

(** [ends P mayRaise p]: wherever [p] ends, however its calls settle, it
    returns a value in [P], or it raises and [mayRaise] holds. *)
Fixpoint ends {A : Type} (P : A -> Prop) (mayRaise : Prop) (p : t A) : Prop :=
  match p with
  | Return a => P a
  | Throw _ => mayRaise
  | Call _ k => forall s, ends P mayRaise (k s)
  end.

End WithClient.

Arguments t E A : clear implicits.
Arguments Client E : clear implicits.
Arguments Invocation E : clear implicits.
Arguments Return {E A} a.
Arguments Throw {E A} e.
Arguments Call {E A R} c k.
Arguments Invoked {E R} c.

End Async.

Import Async.

Declare Scope async_scope.
Delimit Scope async_scope with async.
Notation "x <- p ;; q" := (Async.bind p (fun x => q))
  (at level 61, p at next level, right associativity) : async_scope.

(** ** Data model *)

(** [{ name: string; value: string }].  An executor copies an argument into
    [value] unchecked, so [value] is [undefined] when that argument is absent. *)
Record Tag : Type := { name : string; value : option string }.

(** [src/config.ts]: [ToolResult]; [isError?: boolean]. *)
Record ContentItem : Type := { type : string; text : string }.
Record ToolResult : Type := { content : list ContentItem; isError : option bool }.

(** What the client answers for [dryrun] and [result], and the [node] of a
    [results] edge, with the shape declared in [list-results.ts]:
    [{ Output?: { data?: string }; Messages?: Array<{ Tags?; Data? }>; Error?: string }]. *)
Record Message : Type := { Tags : option (list Tag); Data : option string }.
Record OutputValue : Type := { data : option string }.
Record Response : Type := {
  Output : option OutputValue;
  Messages : option (list Message);
  Error : option string
}.

(** [{ edges: [{ cursor, node }] }] *)
Record Edge : Type := { cursor : string; node : Response }.
Record ResultsPage : Type := { edges : option (list Edge) }.

(** [src/config.ts]: [AO_CONFIG]. *)
Module AO_CONFIG.
Definition AOS_MODULE : string := "Do_Uc2Sju_ffp6Ev0AnLVdPtot15rvMjP-a9VVaA5fM".
Definition SCHEDULER : string := "_GQ33BkPtZrqxA84vM8Zk-N2aO0toNNu_C-l-rawrBA".
Definition CHAMBER_PID : string := "4Kg8kj1SZPPMNOskIY0TlCfhJri8XEHsSAE8j-k0FOA".
End AO_CONFIG.

(** The argument object of a tool call.  [handleToolCall] receives one
    [Record<string, unknown>] and casts it, unchanged, to the interface of
    the executor it selects ([QueryProcessArgs], [SendMessageArgs],
    [SpawnProcessArgs], [EvalLuaArgs], [ListResultsArgs]); the record holds
    the keys those interfaces declare, each at its declared type, and any of
    them may be absent.  [code] is a string as well, held by its code units. *)
Module Args.
Record t : Type := {
  process_id : option string;
  action : option string;
  data : option string;
  tags : option (list Tag);
  wallet_json : option string;
  name : option string;
  module : option string;
  scheduler : option string;
  code : option JS.Text;
  limit : option Z;
  from : option string;
  sort : option string
}.

(** [{}] *)
Definition empty : t :=
  {| process_id := None; action := None; data := None; tags := None;
     wallet_json := None; name := None; module := None; scheduler := None;
     code := None; limit := None; from := None; sort := None |}.
End Args.

(** [response.Output?.data] *)
Definition outputData (response : Response) : option string :=
  match Output response with
  | Some output => data output
  | None => None
  end.

(** [tags?.find(t => t.name === "Action")] *)
Definition findAction (tags : option (list Tag)) : option Tag :=
  match tags with
  | Some ts => List.find (fun t => String.eqb (name t) "Action") ts
  | None => None
  end.

(** [actionTag?.value] *)
Definition tagValue (actionTag : option Tag) : option string :=
  match actionTag with
  | Some t => value t
  | None => None
  end.

(** [res?.Messages], [res?.Error], [res?.Output?.data], [res?.edges] *)
Definition Messages' (res : option Response) : option (list Message) :=
  match res with Some r => Messages r | None => None end.
Definition Error' (res : option Response) : option string :=
  match res with Some r => Error r | None => None end.
Definition outputData' (res : option Response) : option string :=
  match res with Some r => outputData r | None => None end.
Definition edges' (res : option ResultsPage) : option (list Edge) :=
  match res with Some r => edges r | None => None end.

(** ** The executors *)

Section Executors.

(** [JSON.parse] (its [SyntaxError] is [None]) and
    [JSON.stringify(_, null, 2)]; the signer [createDataItemSigner] makes. *)
Context {JSONValue Signer : Type}.
Variable JSON_parse : string -> option JSONValue.
Variable JSON_stringify : JSONValue -> string.

(** The calls into [@permaweb/aoconnect], with the fields of the object
    each one is given, in source order. *)
Inductive aoconnect : Type -> Type :=
| createDataItemSigner (jwk : JSONValue) : aoconnect Signer
| dryrun (process : string) (tags : list Tag) (data : string) : aoconnect Response
| message (process : string) (signer : Signer) (tags : list Tag) (data : JS.Text)
    : aoconnect string
| result (process : string) (message : string) : aoconnect (option Response)
| spawn (module scheduler : string) (signer : Signer) (tags : list Tag) : aoconnect string
| results (process : string) (limit : Z) (from : option string) (sort : string)
    : aoconnect (option ResultsPage).

(** [JSON.parse(responseData)]: [undefined] is not JSON. *)
Definition parseData (responseData : option string) : option JSONValue :=
  match responseData with
  | Some s => JSON_parse s
  | None => None
  end.

Local Open Scope async_scope.
Import JS.

(** [src/tools/query-process.ts] *)
Definition executeQueryProcess (args : Args.t) : Async.t aoconnect ToolResult :=
  tryCatch
    (if negb (truthy (Args.process_id args))
        || negb (JS.length (Args.process_id args) =? 43)%nat
     then
       Return {| content := [{| type := "text";
                   text := "Error: Invalid process ID " ++ dquote
                           ++ ToString (Args.process_id args) ++ dquote
                           ++ ". Must be a 43-character Arweave transaction ID." |}];
                 isError := Some true |}
     else
       let tags := [{| name := "Action"; value := Some (JS.or (Args.action args) "Info") |}] in
       let tags := match Args.tags args with
                   | Some custom => (tags ++ custom)%list
                   | None => tags
                   end in
       response <- await (dryrun (ToString (Args.process_id args)) tags
                                 (JS.or (Args.data args) "{}")) ;;
       match Messages response with
       | Some (message0 :: _) =>
           let actionTag := findAction (Tags message0) in
           let responseData := Data message0 in
           if strictEq (tagValue actionTag) "Error" then
             Return {| content := [{| type := "text";
                         text := "Process returned error: " ++ ToString responseData |}];
                       isError := Some true |}
           else
             match parseData responseData with
             | Some parsed =>
                 Return {| content := [{| type := "text";
                             text := "Process response (Action: "
                                     ++ JS.or (tagValue actionTag) "unknown" ++ "):" ++ nl
                                     ++ JSON_stringify parsed |}];
                           isError := None |}
             | None =>
                 Return {| content := [{| type := "text";
                             text := "Process response (Action: "
                                     ++ JS.or (tagValue actionTag) "unknown" ++ "):" ++ nl
                                     ++ ToString responseData |}];
                           isError := None |}
             end
       | _ =>
           if truthy (outputData response) then
             Return {| content := [{| type := "text";
                         text := "Process output:" ++ nl ++ ToString (outputData response) |}];
                       isError := None |}
           else if truthy (Error response) then
             Return {| content := [{| type := "text";
                         text := "Process error: " ++ ToString (Error response) |}];
                       isError := Some true |}
           else
             Return {| content := [{| type := "text";
                         text := "No response from process. The process may not have a handler for this action." |}];
                       isError := None |}
       end)
    (fun error =>
       Return {| content := [{| type := "text";
                   text := "Error querying process: " ++ errorMessage error |}];
                 isError := Some true |}).


(** [src/tools/send-message.ts] *)
Definition executeSendMessage (args : Args.t) : Async.t aoconnect ToolResult :=
  tryCatch
    (if negb (truthy (Args.process_id args))
        || negb (JS.length (Args.process_id args) =? 43)%nat
     then
       Return {| content := [{| type := "text";
                   text := "Error: Invalid process ID " ++ dquote
                           ++ ToString (Args.process_id args) ++ dquote
                           ++ ". Must be a 43-character Arweave transaction ID." |}];
                 isError := Some true |}
     else if negb (truthy (Args.wallet_json args)) then
       Return {| content := [{| type := "text";
                   text := "Error: wallet_json is required for sending messages. Provide the JSON content of your Arweave wallet." |}];
                 isError := Some true |}
     else
       match JSON_parse (ToString (Args.wallet_json args)) with
       | None =>
           Return {| content := [{| type := "text";
                       text := "Error: Invalid wallet JSON. Ensure it is a valid Arweave JWK." |}];
                     isError := Some true |}
       | Some jwk =>
           signer <- await (createDataItemSigner jwk) ;;
           let tags := [{| name := "Action"; value := Args.action args |}] in
           let tags := match Args.tags args with
                       | Some custom => (tags ++ custom)%list
                       | None => tags
                       end in
           msgId <- await (message (ToString (Args.process_id args)) signer tags
                                   (units (JS.or (Args.data args) "{}"))) ;;
           res <- await (result (ToString (Args.process_id args)) msgId) ;;
           match Messages' res with
           | Some (msg :: _) =>
               let actionTag := findAction (Tags msg) in
               let responseData := Data msg in
               if strictEq (tagValue actionTag) "Error" then
                 Return {| content := [{| type := "text";
                             text := "Message sent (ID: " ++ msgId
                                     ++ ") but process returned error:" ++ nl
                                     ++ ToString responseData |}];
                           isError := Some true |}
               else
                 match parseData responseData with
                 | Some parsed =>
                     Return {| content := [{| type := "text";
                                 text := "Message sent successfully!" ++ nl
                                         ++ "Message ID: " ++ msgId ++ nl
                                         ++ "Action: " ++ JS.or (tagValue actionTag) "unknown" ++ nl
                                         ++ "Response:" ++ nl ++ JSON_stringify parsed |}];
                               isError := None |}
                 | None =>
                     Return {| content := [{| type := "text";
                                 text := "Message sent successfully!" ++ nl
                                         ++ "Message ID: " ++ msgId ++ nl
                                         ++ "Action: " ++ JS.or (tagValue actionTag) "unknown" ++ nl
                                         ++ "Response:" ++ nl ++ ToString responseData |}];
                               isError := None |}
                 end
           | _ =>
               if truthy (Error' res) then
                 Return {| content := [{| type := "text";
                             text := "Message sent (ID: " ++ msgId ++ ") but process error: "
                                     ++ ToString (Error' res) |}];
                           isError := Some true |}
               else if truthy (outputData' res) then
                 Return {| content := [{| type := "text";
                             text := "Message sent successfully!" ++ nl
                                     ++ "Message ID: " ++ msgId ++ nl
                                     ++ "Output:" ++ nl ++ ToString (outputData' res) |}];
                           isError := None |}
               else
                 Return {| content := [{| type := "text";
                             text := "Message sent successfully!" ++ nl
                                     ++ "Message ID: " ++ msgId ++ nl
                                     ++ "No response data returned." |}];
                           isError := None |}
           end
       end)
    (fun error =>
       Return {| content := [{| type := "text";
                   text := "Error sending message: " ++ errorMessage error |}];
                 isError := Some true |}).

(** [src/tools/spawn-process.ts] *)
Definition executeSpawnProcess (args : Args.t) : Async.t aoconnect ToolResult :=
  tryCatch
    (if negb (truthy (Args.wallet_json args)) then
       Return {| content := [{| type := "text";
                   text := "Error: wallet_json is required for spawning processes. Provide the JSON content of your Arweave wallet." |}];
                 isError := Some true |}
     else
       match JSON_parse (ToString (Args.wallet_json args)) with
       | None =>
           Return {| content := [{| type := "text";
                       text := "Error: Invalid wallet JSON. Ensure it is a valid Arweave JWK." |}];
                     isError := Some true |}
       | Some jwk =>
           signer <- await (createDataItemSigner jwk) ;;
           let tags := [] in
           let tags := if truthy (Args.name args)
                       then (tags ++ [{| name := "Name"; value := Args.name args |}])%list
                       else tags in
           let tags := match Args.tags args with
                       | Some custom => (tags ++ custom)%list
                       | None => tags
                       end in
           pid <- await (spawn (JS.or (Args.module args) AO_CONFIG.AOS_MODULE)
                               (JS.or (Args.scheduler args) AO_CONFIG.SCHEDULER)
                               signer tags) ;;
           Return {| content := [{| type := "text";
                       text := "Process spawned successfully!" ++ nl ++ nl
                               ++ "Process ID: " ++ pid ++ nl
                               ++ "Module: " ++ JS.or (Args.module args) AO_CONFIG.AOS_MODULE ++ nl
                               ++ "Scheduler: " ++ JS.or (Args.scheduler args) AO_CONFIG.SCHEDULER
                               ++ (if truthy (Args.name args)
                                   then nl ++ "Name: " ++ ToString (Args.name args)
                                   else "")
                               ++ nl ++ nl
                               ++ "You can now send messages to this process using the ao_send_message tool." |}];
                     isError := None |}
       end)
    (fun error =>
       Return {| content := [{| type := "text";
                   text := "Error spawning process: " ++ errorMessage error |}];
                 isError := Some true |}).

(** [src/tools/eval-lua.ts] *)
Definition executeEvalLua (args : Args.t) : Async.t aoconnect ToolResult :=
  tryCatch
    (if negb (truthy (Args.process_id args))
        || negb (JS.length (Args.process_id args) =? 43)%nat
     then
       Return {| content := [{| type := "text";
                   text := "Error: Invalid process ID " ++ dquote
                           ++ ToString (Args.process_id args) ++ dquote
                           ++ ". Must be a 43-character Arweave transaction ID." |}];
                 isError := Some true |}
     else if negb (truthyText (Args.code args))
             || (List.length (trim (ToText (Args.code args))) =? 0)%nat
     then
       Return {| content := [{| type := "text";
                   text := "Error: code is required. Provide Lua code to execute." |}];
                 isError := Some true |}
     else if negb (truthy (Args.wallet_json args)) then
       Return {| content := [{| type := "text";
                   text := "Error: wallet_json is required for executing Lua code. Provide the JSON content of your Arweave wallet." |}];
                 isError := Some true |}
     else
       match JSON_parse (ToString (Args.wallet_json args)) with
       | None =>
           Return {| content := [{| type := "text";
                       text := "Error: Invalid wallet JSON. Ensure it is a valid Arweave JWK." |}];
                     isError := Some true |}
       | Some jwk =>
           signer <- await (createDataItemSigner jwk) ;;
           msgId <- await (message (ToString (Args.process_id args)) signer
                                   [{| name := "Action"; value := Some "Eval" |}]
                                   (ToText (Args.code args))) ;;
           res <- await (result (ToString (Args.process_id args)) msgId) ;;
           if truthy (Error' res) then
             Return {| content := [{| type := "text";
                         text := "Lua execution error:" ++ nl ++ ToString (Error' res) |}];
                       isError := Some true |}
           else
             let output := JS.or (outputData' res) "" in
             match Messages' res with
             | Some (msg :: _) =>
                 let actionTag := findAction (Tags msg) in
                 if strictEq (tagValue actionTag) "Error" then
                   Return {| content := [{| type := "text";
                               text := "Lua execution error:" ++ nl ++ ToString (Data msg) |}];
                             isError := Some true |}
                 else
                   Return {| content := [{| type := "text";
                               text := "Lua code executed successfully!" ++ nl
                                       ++ "Message ID: " ++ msgId ++ nl ++ nl
                                       ++ "Output:" ++ nl
                                       ++ JS.or (Some output) "(no output)" ++ nl ++ nl
                                       ++ "Response (Action: "
                                       ++ JS.or (tagValue actionTag) "unknown" ++ "):" ++ nl
                                       ++ JS.or (Data msg) "(no data)" |}];
                             isError := None |}
             | _ =>
                 Return {| content := [{| type := "text";
                             text := "Lua code executed successfully!" ++ nl
                                     ++ "Message ID: " ++ msgId ++ nl ++ nl
                                     ++ "Output:" ++ nl
                                     ++ JS.or (Some output) "(no output)" |}];
                           isError := None |}
             end
       end)
    (fun error =>
       Return {| content := [{| type := "text";
                   text := "Error executing Lua code: " ++ errorMessage error |}];
                 isError := Some true |}).

(** [src/tools/list-results.ts]: the function mapped over [res.edges]. *)
Definition formatResult (edge : Edge) (index : nat) : string :=
  let output := JS.or (outputData (node edge)) "" in
  let messages := match Messages (node edge) with
                  | Some ms => ms
                  | None => []
                  end in
  let error := Error (node edge) in
  let result := "--- Result " ++ numberToString (index + 1)
                ++ " (cursor: " ++ cursor edge ++ ") ---" ++ nl in
  let result := if truthy error
                then result ++ "Error: " ++ ToString error ++ nl
                else result in
  let result := if truthy (Some output)
                then result ++ "Output: " ++ substring0 200 output
                     ++ (if (200 <? String.length output)%nat then "..." else "") ++ nl
                else result in
  let result :=
    match messages with
    | msg :: _ =>
        let actionTag := findAction (Tags msg) in
        let result := result ++ "Message Action: "
                      ++ JS.or (tagValue actionTag) "unknown" ++ nl in
        if truthy (Data msg) then
          let dataPreview := substring0 200 (ToString (Data msg)) in
          result ++ "Message Data: " ++ dataPreview
          ++ (if (200 <? JS.length (Data msg))%nat then "..." else "") ++ nl
        else result
    | [] => result
    end in
  result.

(** [src/tools/list-results.ts] *)
Definition executeListResults (args : Args.t) : Async.t aoconnect ToolResult :=
  tryCatch
    (if negb (truthy (Args.process_id args))
        || negb (JS.length (Args.process_id args) =? 43)%nat
     then
       Return {| content := [{| type := "text";
                   text := "Error: Invalid process ID " ++ dquote
                           ++ ToString (Args.process_id args) ++ dquote
                           ++ ". Must be a 43-character Arweave transaction ID." |}];
                 isError := Some true |}
     else
       res <- await (results (ToString (Args.process_id args))
                             (orNumber (Args.limit args) 10)
                             (Args.from args)
                             (JS.or (Args.sort args) "DESC")) ;;
       match edges' res with
       | None | Some [] =>
           Return {| content := [{| type := "text";
                       text := "No results found for process "
                               ++ ToString (Args.process_id args) |}];
                     isError := None |}
       | Some resEdges =>
           let formattedResults := mapi formatResult resEdges in
           Return {| content := [{| type := "text";
                       text := "Results for process " ++ ToString (Args.process_id args)
                               ++ ":" ++ nl ++ nl ++ join nl formattedResults |}];
                     isError := None |}
       end)
    (fun error =>
       Return {| content := [{| type := "text";
                   text := "Error listing results: " ++ errorMessage error |}];
                 isError := Some true |}).

(** [src/tools/index.ts]: the [switch (name)] of the dispatcher. *)
Definition handleToolCall (name : string) (args : Args.t) : Async.t aoconnect ToolResult :=
  if String.eqb name "ao_query_process" then executeQueryProcess args
  else if String.eqb name "ao_send_message" then executeSendMessage args
  else if String.eqb name "ao_spawn_process" then executeSpawnProcess args
  else if String.eqb name "ao_eval_lua" then executeEvalLua args
  else if String.eqb name "ao_list_results" then executeListResults args
  else
    Return {| content := [{| type := "text"; text := "Unknown tool: " ++ name |}];
              isError := Some true |}.

End Executors.

Arguments aoconnect : clear implicits.

(** The five names [handleToolCall] dispatches on ([TOOLS] in
    [src/tools/index.ts], in order). *)
Definition toolNames : list string :=
  ["ao_query_process"; "ao_send_message"; "ao_spawn_process"; "ao_eval_lua"; "ao_list_results"].

(** ** The registry and the server wrapper *)

(** [src/tools/index.ts]: [TOOLS], each descriptor with its [name] and, of
    its [inputSchema], the keys of [properties] with their [type] and the
    [required] list, in source order.  The [description] texts are prose for
    the caller and are left out. *)
Module Tool.
Record t : Type := {
  name : string;
  properties : list (string * string);
  required : list string
}.
End Tool.

Definition TOOLS : list Tool.t :=
  [ {| Tool.name := "ao_query_process";
       Tool.properties := [("process_id", "string"); ("action", "string");
                           ("data", "string"); ("tags", "array")];
       Tool.required := ["process_id"] |};
    {| Tool.name := "ao_send_message";
       Tool.properties := [("process_id", "string"); ("action", "string");
                           ("data", "string"); ("tags", "array");
                           ("wallet_json", "string")];
       Tool.required := ["process_id"; "action"; "wallet_json"] |};
    {| Tool.name := "ao_spawn_process";
       Tool.properties := [("name", "string"); ("module", "string");
                           ("scheduler", "string"); ("tags", "array");
                           ("wallet_json", "string")];
       Tool.required := ["wallet_json"] |};
    {| Tool.name := "ao_eval_lua";
       Tool.properties := [("process_id", "string"); ("code", "string");
                           ("wallet_json", "string")];
       Tool.required := ["process_id"; "code"; "wallet_json"] |};
    {| Tool.name := "ao_list_results";
       Tool.properties := [("process_id", "string"); ("limit", "number");
                           ("from", "string"); ("sort", "string")];
       Tool.required := ["process_id"] |} ].

(** [request.params] of a call-tool request: [{ name, arguments? }]. *)
Module CallToolRequest.
Record params : Type := {
  name : string;
  arguments : option Args.t
}.
End CallToolRequest.

Section Server.

Context {JSONValue Signer : Type}.
Variable JSON_parse : string -> option JSONValue.
Variable JSON_stringify : JSONValue -> string.

Local Open Scope async_scope.

(** [src/server.ts]: the handler [setupHandlers] registers for
    [CallToolRequestSchema]. *)
Definition callToolHandler (request : CallToolRequest.params)
    : Async.t (aoconnect JSONValue Signer) ToolResult :=
  let name := CallToolRequest.name request in
  let args := CallToolRequest.arguments request in
  tryCatch
    (result <- handleToolCall JSON_parse JSON_stringify name
                 (match args with
                  | Some given => given
                  | None => Args.empty
                  end) ;;
     Return result)
    (fun error =>
       Return {| content := [{| type := "text";
                   text := "Error: " ++ JS.errorMessage error |}];
                 isError := Some true |}).

(** [src/server.ts]: the handler registered for [ListToolsRequestSchema]
    answers [{ tools: TOOLS }]. *)
Definition listToolsHandler : list Tool.t := TOOLS.

End Server.

(** ** Vocabulary of the properties *)

(** The two envelopes an executor builds: one text item, with and without
    the error flag. *)
Definition success (message : string) : ToolResult :=
  {| content := [{| type := "text"; text := message |}]; isError := None |}.

Definition failure (message : string) : ToolResult :=
  {| content := [{| type := "text"; text := message |}]; isError := Some true |}.

(** An optional field counts as present when it holds a non-empty string. *)
Definition present (field : option string) (s : string) : Prop :=
  field = Some s /\ s <> "".

Definition absent (field : option string) : Prop :=
  field = None \/ field = Some "".

(** The first returned message, when there is one. *)
Definition firstMessage (messages : option (list Message)) : option Message :=
  match messages with
  | Some (m :: _) => Some m
  | _ => None
  end.

(** The value of a message's [Action] tag. *)
Definition actionOf (m : Message) : option string :=
  tagValue (findAction (Tags m)).

(** The tags the caller supplied. *)
Definition callerTags (args : Args.t) : list Tag :=
  match Args.tags args with
  | Some custom => custom
  | None => []
  end.

(** A text made of white space only; the empty text is one. *)
Fixpoint onlyWhiteSpace (t : JS.Text) : bool :=
  match t with
  | u :: rest => JS.isWhiteSpace u && onlyWhiteSpace rest
  | [] => true
  end.

(** The truncation law of the results listing, in the words of the
    specification: a field of at most 200 characters is rendered as it is,
    a longer one as its first 200 characters and an ellipsis. *)
Inductive Rendered (field : string) : string -> Prop :=
| RenderedWhole :
    String.length field <= 200 ->
    Rendered field field
| RenderedCut (first200 rest : string) :
    field = first200 ++ rest ->
    String.length first200 = 200 ->
    rest <> "" ->
    Rendered field (first200 ++ "...").

(** One envelope item, of type text. *)
Definition oneTextItem (envelope : ToolResult) : Prop :=
  exists item, content envelope = [item] /\ type item = "text".

(** The text of an envelope's first item. *)
Definition textOf (envelope : ToolResult) : string :=
  match content envelope with
  | item :: _ => text item
  | [] => ""
  end.

(** Wallet key material that cannot be used: absent, empty, or not JSON. *)
Definition unusable {JSONValue : Type} (JSON_parse : string -> option JSONValue)
    (wallet : option string) : Prop :=
  absent wallet \/ exists s, wallet = Some s /\ JSON_parse s = None.

(** The tag sequence a call hands to the network, for the calls that carry one. *)
Definition sentTags {JSONValue Signer : Type}
    (call : Async.Invocation (aoconnect JSONValue Signer)) : option (list Tag) :=
  match call with
  | Invoked c =>
      match c with
      | dryrun _ tags _ => Some tags
      | message _ _ tags _ => Some tags
      | spawn _ _ _ tags => Some tags
      | _ => None
      end
  end.

(** A program that, against [client], returns an envelope of one text item. *)
Definition returnsOneTextItem {E : Type -> Type} (client : Async.Client E)
    (p : Async.t E ToolResult) : Prop :=
  exists envelope, fst (run client p) = Returned envelope /\ oneTextItem envelope.

(** The client function a call invokes. *)
Definition callName {JSONValue Signer : Type}
    (call : Async.Invocation (aoconnect JSONValue Signer)) : string :=
  match call with
  | Invoked c =>
      match c with
      | createDataItemSigner _ => "createDataItemSigner"
      | dryrun _ _ _ => "dryrun"
      | message _ _ _ _ => "message"
      | result _ _ => "result"
      | spawn _ _ _ _ => "spawn"
      | results _ _ _ _ => "results"
      end
  end.

(** [xs] is an initial segment of [ys]. *)
Fixpoint startOf (xs ys : list string) : bool :=
  match xs, ys with
  | [], _ => true
  | x :: xs', y :: ys' => String.eqb x y && startOf xs' ys'
  | _ :: _, [] => false
  end.

(** The argument stored under a key whose value is kept as a string;
    [undefined] for any other key. *)
Definition stringArg (key : string) (args : Args.t) : option string :=
  if String.eqb key "process_id" then Args.process_id args
  else if String.eqb key "action" then Args.action args
  else if String.eqb key "data" then Args.data args
  else if String.eqb key "wallet_json" then Args.wallet_json args
  else if String.eqb key "name" then Args.name args
  else if String.eqb key "module" then Args.module args
  else if String.eqb key "scheduler" then Args.scheduler args
  else if String.eqb key "from" then Args.from args
  else if String.eqb key "sort" then Args.sort args
  else None.

(** The argument under a key is absent or empty. *)
Definition missing (key : string) (args : Args.t) : Prop :=
  if String.eqb key "code"
  then Args.code args = None \/ Args.code args = Some []
  else absent (stringArg key args).

(** Two argument objects hold the same value under a key. *)
Definition sameArg (key : string) (a b : Args.t) : Prop :=
  if String.eqb key "tags" then Args.tags a = Args.tags b
  else if String.eqb key "limit" then Args.limit a = Args.limit b
  else if String.eqb key "code" then Args.code a = Args.code b
  else stringArg key a = stringArg key b.

(** An envelope as the executors build them: some text, and an error flag
    that is absent or true. *)
Definition wellFormed (envelope : ToolResult) : Prop :=
  textOf envelope <> ""
  /\ (isError envelope = None \/ isError envelope = Some true).

(** The text begins with the dispatcher's unknown-tool notice. *)
Definition unknownToolNotice (envelope : ToolResult) : bool :=
  String.prefix "Unknown tool: " (textOf envelope).

(** ** Sample inputs *)

Module Sample.

(** A JSON reader that knows the empty object only, printed as it was read. *)
Definition JSON_parse (s : string) : option string :=
  if String.eqb s "{}" then Some s else None.
Definition JSON_stringify (v : string) : string := v.

(** An answer with output and error but no message, and one whose only
    message is tagged as an error. *)
Definition noMessages : Response :=
  {| Output := Some {| data := Some "out" |}; Messages := None; Error := Some "err" |}.

Definition boom : Response :=
  {| Output := None;
     Messages := Some [{| Tags := Some [{| name := "Action"; value := Some "Error" |}];
                          Data := Some "boom" |}];
     Error := None |}.

(** A client that answers every call at once: [response] to [dryrun] and
    [result], [page] to [results]. *)
Definition client (response : Response) (page : list Edge)
    : Async.Client (aoconnect string unit) :=
  fun R c =>
    match c in aoconnect _ _ R return Settled R with
    | createDataItemSigner _ => Fulfilled tt
    | dryrun _ _ _ => Fulfilled response
    | message _ _ _ _ => Fulfilled "MSG"
    | result _ _ => Fulfilled (Some response)
    | spawn _ _ _ _ => Fulfilled "NEW"
    | results _ _ _ _ => Fulfilled (Some {| edges := Some page |})
    end.

(** A field of [n] characters, and a listed result whose output it is. *)
Fixpoint field (n : nat) : string :=
  match n with
  | O => EmptyString
  | S m => String "x" (field m)
  end.

Definition listed (output : string) : Edge :=
  {| cursor := "c1";
     node := {| Output := Some {| data := Some output |}; Messages := None; Error := None |} |}.

(** [{ process_id }] *)
Definition withProcess (pid : string) : Args.t :=
  {| Args.process_id := Some pid; Args.action := None; Args.data := None;
     Args.tags := None; Args.wallet_json := None; Args.name := None;
     Args.module := None; Args.scheduler := None; Args.code := None;
     Args.limit := None; Args.from := None; Args.sort := None |}.

(** [{ process_id, action: "", data: "", limit: 0 }] *)
Definition falsyOptions (pid : string) : Args.t :=
  {| Args.process_id := Some pid; Args.action := Some ""; Args.data := Some "";
     Args.tags := None; Args.wallet_json := None; Args.name := None;
     Args.module := None; Args.scheduler := None; Args.code := None;
     Args.limit := Some 0%Z; Args.from := None; Args.sort := None |}.

(** [{ process_id, action: "Transfer", code, wallet_json: "{}" }] *)
Definition signedFor (pid code : string) : Args.t :=
  {| Args.process_id := Some pid; Args.action := Some "Transfer"; Args.data := None;
     Args.tags := None; Args.wallet_json := Some "{}"; Args.name := None;
     Args.module := None; Args.scheduler := None; Args.code := Some (JS.units code);
     Args.limit := None; Args.from := None; Args.sort := None |}.

(** [{ name, tags: [{ name: "Action", value: "Boom" }], wallet_json: "{}" }] *)
Definition spawnTagged (processName : option string) : Args.t :=
  {| Args.process_id := None; Args.action := None; Args.data := None;
     Args.tags := Some [{| name := "Action"; value := Some "Boom" |}];
     Args.wallet_json := Some "{}"; Args.name := processName;
     Args.module := None; Args.scheduler := None; Args.code := None;
     Args.limit := None; Args.from := None; Args.sort := None |}.

End Sample.

Module Scenario.

(** A client whose every call is rejected with [e]. *)
Definition unreachable (e : JS.Thrown) : Async.Client (aoconnect string unit) :=
  fun R _ => Rejected e.

(** A client that derives the signer and accepts the message as [MSG], and
    whose outcome fetch is rejected with [e]. *)
Definition fetchFails (e : JS.Thrown) : Async.Client (aoconnect string unit) :=
  fun R c =>
    match c in aoconnect _ _ R return Settled R with
    | createDataItemSigner _ => Fulfilled tt
    | message _ _ _ _ => Fulfilled "MSG"
    | _ => Rejected e
    end.

(** [{ process_id, wallet_json: "{}" }]: a send-message call without its action. *)
Definition noAction (pid : string) : Args.t :=
  {| Args.process_id := Some pid; Args.action := None; Args.data := None;
     Args.tags := None; Args.wallet_json := Some "{}"; Args.name := None;
     Args.module := None; Args.scheduler := None; Args.code := None;
     Args.limit := None; Args.from := None; Args.sort := None |}.

(** [{ name: "demo", wallet_json: "{}" }] *)
Definition spawnNamed : Args.t :=
  {| Args.process_id := None; Args.action := None; Args.data := None;
     Args.tags := None; Args.wallet_json := Some "{}"; Args.name := Some "demo";
     Args.module := None; Args.scheduler := None; Args.code := None;
     Args.limit := None; Args.from := None; Args.sort := None |}.

(** [{ process_id, code, wallet_json: "{}" }], the code given by its code units. *)
Definition evaluate (pid : string) (code : JS.Text) : Args.t :=
  {| Args.process_id := Some pid; Args.action := None; Args.data := None;
     Args.tags := None; Args.wallet_json := Some "{}"; Args.name := None;
     Args.module := None; Args.scheduler := None; Args.code := Some code;
     Args.limit := None; Args.from := None; Args.sort := None |}.

(** Code of white space alone: an ideographic space, a byte order mark, a
    line separator, a space and a tab. *)
Definition blankCode : JS.Text := [12288; 65279; 8232; 32; 9]%N.

(** An outcome with an error field beside a message and output. *)
Definition failedEval : Response :=
  {| Output := Some {| data := Some "partial" |};
     Messages := Some [{| Tags := Some [{| name := "Action"; value := Some "Done" |}];
                          Data := Some "ok" |}];
     Error := Some "attempt to call a nil value" |}.

End Scenario.

(** ** Running asynchronous programs *)

Section AsyncFacts.
Context {E : Type -> Type}.

Lemma run_Return {A : Type} (client : Async.Client E) (a : A) :
  run client (Return a) = (Returned a, []).
Proof. reflexivity. Qed.

Lemma run_Throw {A : Type} (client : Async.Client E) (e : JS.Thrown) :
  run client (Throw e) = (@Raised A e, []).
Proof. reflexivity. Qed.

Lemma run_Call {A R : Type} (client : Async.Client E) (c : E R) (k : Settled R -> Async.t E A) :
  run client (Call c k)
  = (fst (run client (k (client R c))), Invoked c :: snd (run client (k (client R c)))).
Proof. simpl. destruct (run client (k (client R c))). reflexivity. Qed.

(** A program all of whose ends return a value in [P] returns one against
    every client. *)
Lemma ends_run {A : Type} (P : A -> Prop) (p : Async.t E A) :
  ends P False p ->
  forall client : Async.Client E, exists a, fst (run client p) = Returned a /\ P a.
Proof.
  induction p as [a | e | R c k IH]; simpl; intros Hends client.
  - exists a. split; [reflexivity | exact Hends].
  - contradiction.
  - destruct (IH (client R c) (Hends (client R c)) client) as [a [Hrun Ha]].
    exists a. destruct (run client (k (client R c))). split; assumption.
Qed.

(** [try]/[catch] whose handler always returns in [P] leaves nothing raised. *)
Lemma ends_tryCatch {A : Type} (P : A -> Prop) (p : Async.t E A)
    (handler : JS.Thrown -> Async.t E A) :
  ends P True p ->
  (forall e, ends P False (handler e)) ->
  ends P False (tryCatch p handler).
Proof.
  induction p as [a | e | R c k IH]; simpl; intros Hp Hh.
  - exact Hp.
  - apply Hh.
  - intros s. apply IH; [apply Hp | exact Hh].
Qed.

End AsyncFacts.

(** ** Strings *)

Lemma truthy_length_43 (pid : string) :
  String.length pid = 43 -> JS.truthy (Some pid) = true.
Proof. destruct pid; simpl; [discriminate | reflexivity]. Qed.

Lemma guard_rejects (pid : string) :
  String.length pid <> 43 ->
  negb (JS.truthy (Some pid)) || negb (JS.length (Some pid) =? 43)%nat = true.
Proof.
  intros Hlen. apply orb_true_iff. right.
  simpl. apply negb_true_iff, Nat.eqb_neq. exact Hlen.
Qed.

Lemma guard_accepts (pid : string) :
  String.length pid = 43 ->
  negb (JS.truthy (Some pid)) || negb (JS.length (Some pid) =? 43)%nat = false.
Proof.
  intros Hlen. rewrite (truthy_length_43 pid Hlen). simpl.
  rewrite Hlen. reflexivity.
Qed.

Lemma trimStart_onlyWhiteSpace (t : JS.Text) :
  onlyWhiteSpace t = true -> JS.trimStart t = [].
Proof.
  induction t as [| u rest IH]; simpl; intros Hws.
  - reflexivity.
  - apply andb_true_iff in Hws. destruct Hws as [Hu Hrest].
    rewrite Hu. apply IH. exact Hrest.
Qed.

Lemma trim_onlyWhiteSpace (t : JS.Text) :
  onlyWhiteSpace t = true -> JS.trim t = [].
Proof.
  intros Hws. unfold JS.trim. rewrite (trimStart_onlyWhiteSpace t Hws). reflexivity.
Qed.

Lemma truthy_present (field : option string) (s : string) :
  present field s -> JS.truthy field = true /\ JS.ToString field = s.
Proof.
  intros [-> Hs]. destruct s; [contradiction Hs; reflexivity | split; reflexivity].
Qed.

Lemma truthy_absent (field : option string) :
  absent field -> JS.truthy field = false.
Proof. intros [-> | ->]; reflexivity. Qed.

Lemma strictEq_true (field : option string) (s : string) :
  field = Some s -> JS.strictEq field s = true.
Proof. intros ->. simpl. apply String.eqb_refl. Qed.

Lemma strictEq_false (field : option string) (s : string) :
  field <> Some s -> JS.strictEq field s = false.
Proof.
  intros Hneq. destruct field as [x |]; simpl; [| reflexivity].
  destruct (String.eqb_spec x s) as [-> | _]; [contradiction Hneq |]; reflexivity.
Qed.

Lemma firstMessage_some (messages : option (list Message)) (m : Message) :
  firstMessage messages = Some m -> exists rest, messages = Some (m :: rest).
Proof.
  destruct messages as [[| m' rest] |]; simpl; intros Hfirst; try discriminate.
  injection Hfirst as ->. exists rest. reflexivity.
Qed.

Lemma firstMessage_none (messages : option (list Message)) :
  firstMessage messages = None -> messages = None \/ messages = Some [].
Proof.
  destruct messages as [[| m' rest] |]; simpl; intros Hfirst; try discriminate; auto.
Qed.

Lemma trimEnd_empty (t : JS.Text) :
  JS.trimEnd t = [] -> onlyWhiteSpace t = true.
Proof.
  induction t as [| u rest IH]; simpl; intros Hempty.
  - reflexivity.
  - destruct (JS.trimEnd rest) eqn:Hrest; [| discriminate].
    destruct (JS.isWhiteSpace u); [| discriminate].
    simpl. apply IH. reflexivity.
Qed.

Lemma trimStart_keeps_rest (t : JS.Text) :
  onlyWhiteSpace (JS.trimStart t) = true -> onlyWhiteSpace t = true.
Proof.
  induction t as [| u rest IH]; simpl; intros Hws.
  - reflexivity.
  - destruct (JS.isWhiteSpace u) eqn:Hu; simpl in *.
    + apply IH. exact Hws.
    + rewrite Hu in Hws. discriminate.
Qed.

(** [trim] leaves nothing exactly of the texts made of white space. *)
Lemma trim_empty_iff (t : JS.Text) :
  JS.trim t = [] <-> onlyWhiteSpace t = true.
Proof.
  split; [| apply trim_onlyWhiteSpace].
  intros Hempty. apply trimStart_keeps_rest, trimEnd_empty. exact Hempty.
Qed.

Lemma code_guard_accepts (code : JS.Text) :
  onlyWhiteSpace code = false ->
  negb (JS.truthyText (Some code))
  || (List.length (JS.trim (JS.ToText (Some code))) =? 0)%nat
  = false.
Proof.
  intros Hcode. simpl JS.ToText.
  destruct (JS.trim code) eqn:Htrim.
  - apply trim_empty_iff in Htrim. congruence.
  - destruct code; [discriminate Hcode | reflexivity].
Qed.

Lemma truthyText_missing (code : option JS.Text) :
  code = None \/ code = Some [] -> JS.truthyText code = false.
Proof. intros [-> | ->]; reflexivity. Qed.

Lemma unusable_cases {JSONValue : Type} (JSON_parse : string -> option JSONValue)
    (wallet : option string) :
  unusable JSON_parse wallet ->
  JS.truthy wallet = false
  \/ (JS.truthy wallet = true /\ JSON_parse (JS.ToString wallet) = None).
Proof.
  intros [Habsent | [s [-> Hparse]]].
  - left. apply truthy_absent. exact Habsent.
  - destruct s; [left | right; split]; auto.
Qed.

Lemma append_assoc (a b c : string) : (a ++ b) ++ c = a ++ (b ++ c).
Proof. induction a as [| x a IH]; simpl; [| rewrite IH]; reflexivity. Qed.

Lemma append_empty_r (a : string) : a ++ "" = a.
Proof. induction a as [| x a IH]; simpl; [| rewrite IH]; reflexivity. Qed.

Lemma substring_whole (n : nat) (s : string) :
  String.length s <= n -> String.substring 0 n s = s.
Proof.
  revert s. induction n as [| n IH]; intros [| c s]; simpl; intros Hlen;
    try reflexivity.
  - lia.
  - rewrite IH by lia. reflexivity.
Qed.

Lemma substring_cut (n : nat) (s : string) :
  n < String.length s ->
  exists rest,
    s = String.substring 0 n s ++ rest
    /\ String.length (String.substring 0 n s) = n
    /\ rest <> "".
Proof.
  revert s. induction n as [| n IH]; intros [| c s]; simpl; intros Hlen; try lia.
  - exists (String c s). repeat split. discriminate.
  - destruct (IH s) as [rest [Hs [Hn Hrest]]]; [lia |].
    exists rest. repeat split; [congruence | congruence | exact Hrest].
Qed.

(** What [executeListResults] writes for a field obeys the truncation law. *)
Lemma rendered_substring (s : string) :
  Rendered s (JS.substring0 200 s ++ (if (200 <? String.length s)%nat then "..." else "")).
Proof.
  unfold JS.substring0.
  destruct (Nat.ltb_spec 200 (String.length s)) as [Hlong | Hshort].
  - destruct (substring_cut 200 s Hlong) as [rest [Hs [Hn Hrest]]].
    exact (RenderedCut s _ rest Hs Hn Hrest).
  - rewrite (substring_whole 200 s Hshort), append_empty_r.
    apply RenderedWhole. exact Hshort.
Qed.

(** The law fixes the rendering. *)
Lemma Rendered_short (s shown : string) :
  Rendered s shown -> String.length s <= 200 -> shown = s.
Proof.
  intros [Hwhole | first200 rest Hs Hn Hrest] Hlen; [reflexivity |].
  exfalso. subst s. revert Hlen Hn Hrest. generalize 200 as n.
  induction first200 as [| c p IH]; simpl; intros n Hlen Hn Hrest.
  - destruct rest; [contradiction Hrest; reflexivity | simpl in Hlen; lia].
  - destruct n; [discriminate |]. apply (IH n); [lia | congruence | exact Hrest].
Qed.

(** ** Properties of the executors *)

Section Properties.

Context {JSONValue Signer : Type}.
Variable JSON_parse : string -> option JSONValue.
Variable JSON_stringify : JSONValue -> string.

Local Abbreviation Client := (Async.Client (aoconnect JSONValue Signer)).

Local Ltac enter executor Hpid guard Hlen :=
  unfold executor; rewrite Hpid, (guard _ Hlen).

(** C1.  A process identifier whose length is not 43 (the empty string is
    one) makes the query, send-message, evaluate-code and list-results
    executors return an envelope flagged [isError: true], the same one in
    all four, without a single call to the client. *)
Theorem invalid_process_id_fails_fast (client : Client) (args : Args.t) (pid : string) :
  Args.process_id args = Some pid ->
  String.length pid <> 43 ->
  let rejected := failure ("Error: Invalid process ID " ++ JS.dquote ++ pid ++ JS.dquote
                           ++ ". Must be a 43-character Arweave transaction ID.") in
  isError rejected = Some true
  /\ run client (executeQueryProcess JSON_parse JSON_stringify args) = (Returned rejected, [])
  /\ run client (executeSendMessage JSON_parse JSON_stringify args) = (Returned rejected, [])
  /\ run client (executeEvalLua JSON_parse args) = (Returned rejected, [])
  /\ run client (executeListResults args) = (Returned rejected, []).
Proof.
  intros Hpid Hlen rejected.
  split; [reflexivity |].
  repeat apply conj.
  - enter @executeQueryProcess Hpid guard_rejects Hlen. reflexivity.
  - enter @executeSendMessage Hpid guard_rejects Hlen. reflexivity.
  - enter @executeEvalLua Hpid guard_rejects Hlen. reflexivity.
  - enter @executeListResults Hpid guard_rejects Hlen. reflexivity.
Qed.

(** C2.  With a 43-character process identifier and a [dryrun] that
    answers [response], [executeQueryProcess] reads the answer in this
    order: (1) a first returned message tagged [Action = Error] gives an
    error envelope with that message's data; (2) any other first message
    gives its data as success, pretty-printed when it parses as JSON and
    raw when it does not; (3) without messages, non-empty output data is
    returned as success; (4) without those, a non-empty error field is
    returned as an error envelope; (5) without any of them, the answer is
    the no-response note, not flagged as an error. *)
Theorem query_response_priority (client : Client) (args : Args.t) (pid : string)
    (response : Response) :
  Args.process_id args = Some pid ->
  String.length pid = 43 ->
  (forall process tags data, client _ (dryrun process tags data) = Fulfilled response) ->
  let returned := fst (run client (executeQueryProcess JSON_parse JSON_stringify args)) in
  (forall m,
      firstMessage (Messages response) = Some m ->
      actionOf m = Some "Error" ->
      returned = Returned (failure ("Process returned error: " ++ JS.ToString (Data m))))
  /\ (forall m,
         firstMessage (Messages response) = Some m ->
         actionOf m <> Some "Error" ->
         returned
         = Returned (success ("Process response (Action: " ++ JS.or (actionOf m) "unknown"
                              ++ "):" ++ JS.nl
                              ++ match Data m with
                                 | Some d => match JSON_parse d with
                                             | Some parsed => JSON_stringify parsed
                                             | None => d
                                             end
                                 | None => "undefined"
                                 end)))
  /\ (firstMessage (Messages response) = None ->
      forall d,
        present (outputData response) d ->
        returned = Returned (success ("Process output:" ++ JS.nl ++ d)))
  /\ (firstMessage (Messages response) = None ->
      absent (outputData response) ->
      forall e,
        present (Error response) e ->
        returned = Returned (failure ("Process error: " ++ e)))
  /\ (firstMessage (Messages response) = None ->
      absent (outputData response) ->
      absent (Error response) ->
      returned
      = Returned (success "No response from process. The process may not have a handler for this action.")).
Proof.
  intros Hpid Hlen Hclient returned. subst returned.
  enter @executeQueryProcess Hpid guard_accepts Hlen.
  simpl. rewrite Hclient. simpl.
  repeat apply conj.
  - intros m Hfirst Haction.
    destruct (firstMessage_some _ _ Hfirst) as [rest ->].
    unfold actionOf in Haction.
    rewrite (strictEq_true _ _ Haction). reflexivity.
  - intros m Hfirst Haction.
    destruct (firstMessage_some _ _ Hfirst) as [rest ->].
    unfold actionOf in *.
    rewrite (strictEq_false _ _ Haction).
    destruct (Data m) as [d |]; simpl; [destruct (JSON_parse d) |]; reflexivity.
  - intros Hfirst d Hout.
    destruct (truthy_present _ _ Hout) as [Htruthy Htext].
    destruct (firstMessage_none _ Hfirst) as [-> | ->];
      rewrite Htruthy, Htext; reflexivity.
  - intros Hfirst Hout e Herr.
    destruct (truthy_present _ _ Herr) as [Htruthy Htext].
    destruct (firstMessage_none _ Hfirst) as [-> | ->];
      rewrite (truthy_absent _ Hout), Htruthy, Htext; reflexivity.
  - intros Hfirst Hout Herr.
    destruct (firstMessage_none _ Hfirst) as [-> | ->];
      rewrite (truthy_absent _ Hout), (truthy_absent _ Herr); reflexivity.
Qed.

(** C3, as the code has it.  With a 43-character process identifier, a
    wallet that parses, and a client that derives the signer, accepts the
    message as [msgId] and answers the outcome fetch with [res],
    [executeSendMessage] reads the outcome in this order: (1) a first
    returned message tagged [Action = Error] gives an error envelope with
    the message id and that message's data; (2) any other first message
    gives its data as success, pretty-printed when it parses as JSON and
    raw when it does not; (3) without messages, a non-empty error field
    gives an error envelope; (4) without those, non-empty output data is
    returned as success; (5) without any of them, success with the note
    that no response data was returned.  (6) Without messages the error
    field therefore wins over the output field, while
    [executeQueryProcess], given the same answer, returns the output. *)
Theorem send_message_outcome_priority (client : Client) (args : Args.t)
    (pid wallet msgId : string) (jwk : JSONValue) (signer : Signer)
    (res : option Response) :
  Args.process_id args = Some pid ->
  String.length pid = 43 ->
  present (Args.wallet_json args) wallet ->
  JSON_parse wallet = Some jwk ->
  (forall key, client _ (createDataItemSigner key) = Fulfilled signer) ->
  (forall process signedBy tags data, client _ (message process signedBy tags data) = Fulfilled msgId) ->
  (forall process id, client _ (result process id) = Fulfilled res) ->
  let returned := fst (run client (executeSendMessage JSON_parse JSON_stringify args)) in
  (forall m,
      firstMessage (Messages' res) = Some m ->
      actionOf m = Some "Error" ->
      returned
      = Returned (failure ("Message sent (ID: " ++ msgId ++ ") but process returned error:"
                           ++ JS.nl ++ JS.ToString (Data m))))
  /\ (forall m,
         firstMessage (Messages' res) = Some m ->
         actionOf m <> Some "Error" ->
         returned
         = Returned (success ("Message sent successfully!" ++ JS.nl
                              ++ "Message ID: " ++ msgId ++ JS.nl
                              ++ "Action: " ++ JS.or (actionOf m) "unknown" ++ JS.nl
                              ++ "Response:" ++ JS.nl
                              ++ match Data m with
                                 | Some d => match JSON_parse d with
                                             | Some parsed => JSON_stringify parsed
                                             | None => d
                                             end
                                 | None => "undefined"
                                 end)))
  /\ (firstMessage (Messages' res) = None ->
      forall e,
        present (Error' res) e ->
        returned
        = Returned (failure ("Message sent (ID: " ++ msgId ++ ") but process error: " ++ e)))
  /\ (firstMessage (Messages' res) = None ->
      absent (Error' res) ->
      forall d,
        present (outputData' res) d ->
        returned
        = Returned (success ("Message sent successfully!" ++ JS.nl
                             ++ "Message ID: " ++ msgId ++ JS.nl
                             ++ "Output:" ++ JS.nl ++ d)))
  /\ (firstMessage (Messages' res) = None ->
      absent (Error' res) ->
      absent (outputData' res) ->
      returned
      = Returned (success ("Message sent successfully!" ++ JS.nl
                           ++ "Message ID: " ++ msgId ++ JS.nl
                           ++ "No response data returned.")))
  /\ (forall response e d,
         res = Some response ->
         (forall process tags data, client _ (dryrun process tags data) = Fulfilled response) ->
         firstMessage (Messages response) = None ->
         present (Error response) e ->
         present (outputData response) d ->
         returned
         = Returned (failure ("Message sent (ID: " ++ msgId ++ ") but process error: " ++ e))
         /\ fst (run client (executeQueryProcess JSON_parse JSON_stringify args))
            = Returned (success ("Process output:" ++ JS.nl ++ d))).
Proof.
  intros Hpid Hlen Hwallet Hjwk Hsigner Hmessage Hresult returned. subst returned.
  destruct (truthy_present _ _ Hwallet) as [Hwt Hws].
  enter @executeSendMessage Hpid guard_accepts Hlen.
  rewrite Hwt, Hws, Hjwk. simpl.
  rewrite Hsigner. simpl. rewrite Hmessage. simpl. rewrite Hresult. simpl.
  repeat apply conj.
  - intros m Hfirst Haction.
    destruct (firstMessage_some _ _ Hfirst) as [rest ->].
    unfold actionOf in Haction. rewrite (strictEq_true _ _ Haction). reflexivity.
  - intros m Hfirst Haction.
    destruct (firstMessage_some _ _ Hfirst) as [rest ->].
    unfold actionOf in *. rewrite (strictEq_false _ _ Haction).
    destruct (Data m) as [d |]; simpl; [destruct (JSON_parse d) |]; reflexivity.
  - intros Hfirst e Herr.
    destruct (truthy_present _ _ Herr) as [Htruthy Htext].
    destruct (firstMessage_none _ Hfirst) as [-> | ->];
      rewrite Htruthy, Htext; reflexivity.
  - intros Hfirst Herr d Hout.
    destruct (truthy_present _ _ Hout) as [Htruthy Htext].
    destruct (firstMessage_none _ Hfirst) as [-> | ->];
      rewrite (truthy_absent _ Herr), Htruthy, Htext; reflexivity.
  - intros Hfirst Herr Hout.
    destruct (firstMessage_none _ Hfirst) as [-> | ->];
      rewrite (truthy_absent _ Herr), (truthy_absent _ Hout); reflexivity.
  - intros response e d -> Hdryrun Hfirst Herr Hout.
    destruct (truthy_present _ _ Herr) as [Herr1 Herr2].
    destruct (truthy_present _ _ Hout) as [Hout1 Hout2].
    split.
    + simpl.
      destruct (firstMessage_none _ Hfirst) as [-> | ->];
        rewrite Herr1, Herr2; reflexivity.
    + enter @executeQueryProcess Hpid guard_accepts Hlen.
      simpl. rewrite Hdryrun. simpl.
      destruct (firstMessage_none _ Hfirst) as [-> | ->];
        rewrite Hout1, Hout2; reflexivity.
Qed.

(** C4, as the code has it.  Wallet key material that is absent, empty or
    not JSON makes each write-path executor (send-message, spawn-process,
    evaluate-code) return an envelope flagged [isError: true] before any
    signer is derived and any call is made.  The text mentions the wallet
    where the wallet is the first thing found wrong: always for
    spawn-process, for send-message when the process identifier has 43
    characters, and for evaluate-code when, besides, the code is not
    blank. *)
Theorem unusable_wallet_fails_fast (client : Client) (args : Args.t) :
  unusable JSON_parse (Args.wallet_json args) ->
  (exists envelope,
      run client (executeSendMessage JSON_parse JSON_stringify args) = (Returned envelope, [])
      /\ isError envelope = Some true)
  /\ (exists envelope,
         run client (executeSpawnProcess JSON_parse args) = (Returned envelope, [])
         /\ isError envelope = Some true
         /\ JS.includes "wallet" (textOf envelope) = true)
  /\ (exists envelope,
         run client (executeEvalLua JSON_parse args) = (Returned envelope, [])
         /\ isError envelope = Some true)
  /\ (forall pid,
         Args.process_id args = Some pid ->
         String.length pid = 43 ->
         exists envelope,
           run client (executeSendMessage JSON_parse JSON_stringify args) = (Returned envelope, [])
           /\ JS.includes "wallet" (textOf envelope) = true)
  /\ (forall pid code,
         Args.process_id args = Some pid ->
         String.length pid = 43 ->
         Args.code args = Some code ->
         onlyWhiteSpace code = false ->
         exists envelope,
           run client (executeEvalLua JSON_parse args) = (Returned envelope, [])
           /\ JS.includes "wallet" (textOf envelope) = true).
Proof.
  intros Hwallet.
  apply unusable_cases in Hwallet.
  repeat apply conj.
  - unfold executeSendMessage.
    destruct (negb (JS.truthy (Args.process_id args))
              || negb (JS.length (Args.process_id args) =? 43)%nat).
    + eexists. split; reflexivity.
    + destruct Hwallet as [-> | [-> ->]]; eexists; split; reflexivity.
  - unfold executeSpawnProcess.
    destruct Hwallet as [-> | [-> ->]]; eexists; repeat split; reflexivity.
  - unfold executeEvalLua.
    destruct (negb (JS.truthy (Args.process_id args))
              || negb (JS.length (Args.process_id args) =? 43)%nat).
    + eexists. split; reflexivity.
    + destruct (negb (JS.truthyText (Args.code args))
                || (List.length (JS.trim (JS.ToText (Args.code args))) =? 0)%nat).
      * eexists. split; reflexivity.
      * destruct Hwallet as [-> | [-> ->]]; eexists; split; reflexivity.
  - intros pid Hpid Hlen.
    enter @executeSendMessage Hpid guard_accepts Hlen.
    destruct Hwallet as [-> | [-> ->]]; eexists; split; reflexivity.
  - intros pid code Hpid Hlen Hcode Hblank.
    enter @executeEvalLua Hpid guard_accepts Hlen.
    rewrite Hcode, (code_guard_accepts code Hblank).
    destruct Hwallet as [-> | [-> ->]]; eexists; split; reflexivity.
Qed.

(** C5.  With a 43-character process identifier and a client that lists
    at least one result, [executeListResults] returns the heading followed
    by one block per result.  In every block the output field, when there
    is one, is written on an [Output:] line and the data of the first
    message, when there is one, on a [Message Data:] line, each obeying
    the truncation law: at most 200 characters are written as they are
    with no marker, more are written as the first 200 followed by [...]. *)
Theorem list_results_truncation (client : Client) (args : Args.t) (pid : string)
    (listed : Edge) (others : list Edge) :
  Args.process_id args = Some pid ->
  String.length pid = 43 ->
  (forall process limit from sort,
      client _ (results process limit from sort)
      = Fulfilled (Some {| edges := Some (listed :: others) |})) ->
  fst (run client (executeListResults args))
  = Returned (success ("Results for process " ++ pid ++ ":" ++ JS.nl ++ JS.nl
                       ++ JS.join JS.nl (JS.mapi formatResult (listed :: others))))
  /\ forall (edge : Edge) (index : nat),
      exists outputLine dataLine,
        formatResult edge index
        = ("--- Result " ++ JS.numberToString (index + 1)
           ++ " (cursor: " ++ cursor edge ++ ") ---" ++ JS.nl)
          ++ (if JS.truthy (Error (node edge))
              then "Error: " ++ JS.ToString (Error (node edge)) ++ JS.nl
              else "")
          ++ outputLine
          ++ match firstMessage (Messages (node edge)) with
             | Some m => "Message Action: " ++ JS.or (actionOf m) "unknown" ++ JS.nl
             | None => ""
             end
          ++ dataLine
        /\ (forall output,
               present (outputData (node edge)) output ->
               exists shown,
                 Rendered output shown /\ outputLine = "Output: " ++ shown ++ JS.nl)
        /\ (absent (outputData (node edge)) -> outputLine = "")
        /\ (forall m d,
               firstMessage (Messages (node edge)) = Some m ->
               present (Data m) d ->
               exists shown,
                 Rendered d shown /\ dataLine = "Message Data: " ++ shown ++ JS.nl)
        /\ (forall m,
               firstMessage (Messages (node edge)) = Some m ->
               absent (Data m) ->
               dataLine = "")
        /\ (firstMessage (Messages (node edge)) = None -> dataLine = "").
Proof.
  intros Hpid Hlen Hresults. split.
  - enter @executeListResults Hpid guard_accepts Hlen.
    cbn [tryCatch Async.bind await]. rewrite run_Call, Hresults. reflexivity.
  - intros edge index. unfold formatResult.
    set (output := JS.or (outputData (node edge)) "").
    exists (if JS.truthy (Some output)
            then "Output: " ++ JS.substring0 200 output
                 ++ (if (200 <? String.length output)%nat then "..." else "") ++ JS.nl
            else ""),
           (match firstMessage (Messages (node edge)) with
            | Some m =>
                if JS.truthy (Data m)
                then "Message Data: " ++ JS.substring0 200 (JS.ToString (Data m))
                     ++ (if (200 <? JS.length (Data m))%nat then "..." else "") ++ JS.nl
                else ""
            | None => ""
            end).
    repeat apply conj.
    + destruct (JS.truthy (Error (node edge)));
        destruct (JS.truthy (Some output));
        destruct (Messages (node edge)) as [[| m ms] |];
        cbn [firstMessage]; unfold actionOf;
        try destruct (JS.truthy (Data m));
        rewrite ?append_assoc, ?append_empty_r; reflexivity.
    + intros field Hfield. subst output.
      destruct Hfield as [-> Hne].
      destruct field as [| c rest]; [contradiction Hne; reflexivity |].
      cbn [JS.or JS.truthy].
      exists (JS.substring0 200 (String c rest)
              ++ (if (200 <? String.length (String c rest))%nat then "..." else "")).
      split; [apply rendered_substring |].
      rewrite ?append_assoc. reflexivity.
    + intros Habsent. subst output.
      destruct Habsent as [-> | ->]; reflexivity.
    + intros m d -> Hd.
      destruct Hd as [-> Hne].
      destruct d as [| c rest]; [contradiction Hne; reflexivity |].
      cbn [JS.truthy JS.ToString JS.length].
      exists (JS.substring0 200 (String c rest)
              ++ (if (200 <? String.length (String c rest))%nat then "..." else "")).
      split; [apply rendered_substring |].
      rewrite ?append_assoc. reflexivity.
    + intros m -> Habsent. rewrite (truthy_absent _ Habsent). reflexivity.
    + intros ->. reflexivity.
Qed.

(** C6.  A tool name that is none of the five registered ones makes
    [handleToolCall] return, not raise, the envelope flagged
    [isError: true] whose text is [Unknown tool: ] followed by the name;
    no call is made. *)
Theorem unknown_tool_is_reported (client : Client) (name : string) (args : Args.t) :
  ~ In name toolNames ->
  run client (handleToolCall JSON_parse JSON_stringify name args)
  = (Returned {| content := [{| type := "text"; text := "Unknown tool: " ++ name |}];
                 isError := Some true |}, []).
Proof.
  intros Hname. unfold handleToolCall.
  repeat match goal with
         | |- context [String.eqb name ?known] =>
             destruct (String.eqb_spec name known) as [-> | _];
             [exfalso; apply Hname; simpl; tauto |]
         end.
  reflexivity.
Qed.

(** Explore a run whose calls are listed in [Hin]: settle every call and
    decide every test on the way, then read the tags of each call made. *)
Local Ltac explore client Hin :=
  repeat (cbn [tryCatch Async.bind await] in Hin;
          rewrite ?run_Call, ?run_Return, ?run_Throw in Hin;
          cbn [fst snd] in Hin;
          match type of Hin with
          | context [client ?R ?c] => destruct (client R c)
          | context [if ?b then _ else _] => destruct b
          | context [match ?x with _ => _ end] => destruct x
          end).

Local Ltac read_tags call Hin Hsent :=
  simpl in Hin;
  repeat (destruct Hin as [Hin | Hin];
          [subst call; simpl in Hsent; try discriminate Hsent;
           injection Hsent as <- |]);
  try contradiction.

(** C7, as the code has it.  Whenever the query, send-message or
    evaluate-code executor hands a tag sequence to the network, that
    sequence starts with the executor's own [Action] tag and continues
    with the caller's tags (evaluate-code takes none).  The sequence of
    the spawn executor is the caller's tags, preceded by one [Name] tag
    exactly when a non-empty name was given; the executor adds no
    [Action] tag, so an [Action] tag in it is one of the caller's. *)
Theorem constructed_tag_sequences (client : Client) (args : Args.t)
    (call : Async.Invocation (aoconnect JSONValue Signer)) (tags : list Tag) :
  sentTags call = Some tags ->
  (In call (snd (run client (executeQueryProcess JSON_parse JSON_stringify args))) ->
   tags = {| name := "Action"; value := Some (JS.or (Args.action args) "Info") |}
          :: callerTags args)
  /\ (In call (snd (run client (executeSendMessage JSON_parse JSON_stringify args))) ->
      tags = {| name := "Action"; value := Args.action args |} :: callerTags args)
  /\ (In call (snd (run client (executeEvalLua JSON_parse args))) ->
      tags = [{| name := "Action"; value := Some "Eval" |}])
  /\ (In call (snd (run client (executeSpawnProcess JSON_parse args))) ->
      tags = ((if JS.truthy (Args.name args)
               then [{| name := "Name"; value := Args.name args |}]
               else []) ++ callerTags args)%list
      /\ forall t, In t tags -> name t = "Action" -> In t (callerTags args)).
Proof.
  intros Hsent. unfold callerTags. repeat apply conj.
  - intros Hin. unfold executeQueryProcess in Hin.
    explore client Hin; read_tags call Hin Hsent; reflexivity.
  - intros Hin. unfold executeSendMessage in Hin.
    explore client Hin; read_tags call Hin Hsent; reflexivity.
  - intros Hin. unfold executeEvalLua in Hin.
    explore client Hin; read_tags call Hin Hsent; reflexivity.
  - intros Hin. unfold executeSpawnProcess in Hin.
    explore client Hin; read_tags call Hin Hsent;
      (split; [reflexivity |]); simpl; intros t Ht Haction;
      repeat match goal with
             | H : _ \/ _ |- _ => destruct H as [H | H]
             | H : _ = t |- _ => subst t; simpl in Haction; discriminate Haction
             end; try assumption; try contradiction.
Qed.

(** C8.  With a 43-character process identifier, a code string that is
    empty or made of white space only (any of the code units [trim]
    removes) makes [executeEvalLua] return the
    envelope flagged [isError: true] that asks for code, whatever the other
    arguments are; no signer is derived and no call is made. *)
Theorem blank_code_fails_fast (client : Client) (args : Args.t) (pid : string)
    (code : JS.Text) :
  Args.process_id args = Some pid ->
  String.length pid = 43 ->
  Args.code args = Some code ->
  onlyWhiteSpace code = true ->
  isError (failure "Error: code is required. Provide Lua code to execute.") = Some true
  /\ run client (executeEvalLua JSON_parse args)
     = (Returned (failure "Error: code is required. Provide Lua code to execute."), []).
Proof.
  intros Hpid Hlen Hcode Hblank.
  split; [reflexivity |].
  enter @executeEvalLua Hpid guard_accepts Hlen.
  rewrite Hcode. simpl JS.ToText.
  rewrite (trim_onlyWhiteSpace code Hblank).
  rewrite orb_true_r. reflexivity.
Qed.

(** Follow every branch of an executor down to the envelope it returns. *)
Local Ltac every_branch :=
  repeat (cbn [ends tryCatch Async.bind await];
          match goal with
          | |- forall _ : Settled _, _ => intros [? | ?]
          | |- forall _ : JS.Thrown, _ => intros ?
          | |- ends _ _ (if ?b then _ else _) => destruct b
          | |- ends _ _ (match ?x with _ => _ end) => destruct x
          | |- oneTextItem _ => eexists; split; reflexivity
          | |- True => exact I
          end).

Lemma executeQueryProcess_ends (args : Args.t) :
  ends oneTextItem False (executeQueryProcess (Signer := Signer) JSON_parse JSON_stringify args).
Proof. apply ends_tryCatch; unfold executeQueryProcess; every_branch. Qed.

Lemma executeSendMessage_ends (args : Args.t) :
  ends oneTextItem False (executeSendMessage (Signer := Signer) JSON_parse JSON_stringify args).
Proof. apply ends_tryCatch; unfold executeSendMessage; every_branch. Qed.

Lemma executeSpawnProcess_ends (args : Args.t) :
  ends oneTextItem False (executeSpawnProcess (Signer := Signer) JSON_parse args).
Proof. apply ends_tryCatch; unfold executeSpawnProcess; every_branch. Qed.

Lemma executeEvalLua_ends (args : Args.t) :
  ends oneTextItem False (executeEvalLua (Signer := Signer) JSON_parse args).
Proof. apply ends_tryCatch; unfold executeEvalLua; every_branch. Qed.

Lemma executeListResults_ends (args : Args.t) :
  ends oneTextItem False (@executeListResults JSONValue Signer args).
Proof. apply ends_tryCatch; unfold executeListResults; every_branch. Qed.

Lemma handleToolCall_ends (name : string) (args : Args.t) :
  ends oneTextItem False (handleToolCall (Signer := Signer) JSON_parse JSON_stringify name args).
Proof.
  unfold handleToolCall.
  repeat match goal with
         | |- ends _ _ (if ?b then _ else _) => destruct b
         end;
    auto using executeQueryProcess_ends, executeSendMessage_ends,
      executeSpawnProcess_ends, executeEvalLua_ends, executeListResults_ends.
  every_branch.
Qed.

(** C9.  Whatever the tool name, the arguments and the client's answers,
    [handleToolCall] returns an envelope whose content is exactly one
    item, of type text; so does each of the five executors, on every
    branch, the error ones and the [catch] included. *)
Theorem envelope_has_one_text_item (client : Client) (name : string) (args : Args.t) :
  returnsOneTextItem client (handleToolCall JSON_parse JSON_stringify name args)
  /\ returnsOneTextItem client (executeQueryProcess JSON_parse JSON_stringify args)
  /\ returnsOneTextItem client (executeSendMessage JSON_parse JSON_stringify args)
  /\ returnsOneTextItem client (executeSpawnProcess JSON_parse args)
  /\ returnsOneTextItem client (executeEvalLua JSON_parse args)
  /\ returnsOneTextItem client (executeListResults args).
Proof.
  unfold returnsOneTextItem.
  repeat apply conj; apply ends_run;
    auto using handleToolCall_ends, executeQueryProcess_ends, executeSendMessage_ends,
      executeSpawnProcess_ends, executeEvalLua_ends, executeListResults_ends.
Qed.

(** C10.  A present but falsy argument is defaulted like an absent one:
    with a 43-character process identifier, a query whose action is the
    empty string sends the tag [Action = Info], a query whose data is the
    empty string sends the data [{}], and a listing whose limit is 0 asks
    the client for 10 results. *)
Theorem falsy_arguments_are_defaulted (client : Client) (args : Args.t) (pid : string) :
  Args.process_id args = Some pid ->
  String.length pid = 43 ->
  (Args.action args = Some "" ->
   snd (run client (executeQueryProcess JSON_parse JSON_stringify args))
   = [Invoked (dryrun pid ({| name := "Action"; value := Some "Info" |} :: callerTags args)
                      (JS.or (Args.data args) "{}"))])
  /\ (Args.data args = Some "" ->
      snd (run client (executeQueryProcess JSON_parse JSON_stringify args))
      = [Invoked (dryrun pid ({| name := "Action"; value := Some (JS.or (Args.action args) "Info") |}
                                :: callerTags args)
                         "{}")])
  /\ (Args.limit args = Some 0%Z ->
      snd (run client (executeListResults args))
      = [Invoked (results pid 10 (Args.from args) (JS.or (Args.sort args) "DESC"))]).
Proof.
  intros Hpid Hlen. repeat apply conj.
  - intros Haction.
    enter @executeQueryProcess Hpid guard_accepts Hlen.
    rewrite Haction. unfold callerTags. simpl.
    destruct (Args.tags args); simpl;
      match goal with |- context [client ?R ?c] => destruct (client R c) as [response | e] end;
      simpl; try reflexivity;
      destruct (Messages response) as [[| m ms] |]; simpl;
      repeat match goal with
             | |- context [if ?b then _ else _] => destruct b; simpl
             | |- context [match parseData ?f ?d with _ => _ end] => destruct (parseData f d); simpl
             end; reflexivity.
  - intros Hdata.
    enter @executeQueryProcess Hpid guard_accepts Hlen.
    rewrite Hdata. unfold callerTags. simpl.
    destruct (Args.tags args); simpl;
      match goal with |- context [client ?R ?c] => destruct (client R c) as [response | e] end;
      simpl; try reflexivity;
      destruct (Messages response) as [[| m ms] |]; simpl;
      repeat match goal with
             | |- context [if ?b then _ else _] => destruct b; simpl
             | |- context [match parseData ?f ?d with _ => _ end] => destruct (parseData f d); simpl
             end; reflexivity.
  - intros Hlimit.
    enter @executeListResults Hpid guard_accepts Hlen.
    rewrite Hlimit. simpl.
    match goal with |- context [client ?R ?c] => destruct (client R c) as [res | e] end;
      simpl; try reflexivity.
    destruct (edges' res) as [[| edge rest] |]; reflexivity.
Qed.

End Properties.

(** ** The properties at work on sample calls *)

(** C1 at the identifier [short]: the four executors reject it, no call made. *)
Lemma invalid_process_id_short :
  let client := Sample.client Sample.noMessages [] in
  let args := Sample.withProcess "short" in
  let rejected := failure ("Error: Invalid process ID " ++ JS.dquote ++ "short" ++ JS.dquote
                           ++ ". Must be a 43-character Arweave transaction ID.") in
  isError rejected = Some true
  /\ run client (executeQueryProcess Sample.JSON_parse Sample.JSON_stringify args)
     = (Returned rejected, [])
  /\ run client (executeSendMessage Sample.JSON_parse Sample.JSON_stringify args)
     = (Returned rejected, [])
  /\ run client (executeEvalLua Sample.JSON_parse args) = (Returned rejected, [])
  /\ run client (executeListResults args) = (Returned rejected, []).
Proof.
  apply (invalid_process_id_fails_fast Sample.JSON_parse Sample.JSON_stringify
           (Sample.client Sample.noMessages []) (Sample.withProcess "short") "short").
  - reflexivity.
  - simpl. lia.
Defined.

(** C2 at an answer whose first message is tagged as an error. *)
Lemma query_remote_error :
  fst (run (Sample.client Sample.boom [])
           (executeQueryProcess Sample.JSON_parse Sample.JSON_stringify
              (Sample.withProcess AO_CONFIG.CHAMBER_PID)))
  = Returned (failure "Process returned error: boom").
Proof.
  refine (proj1 (query_response_priority Sample.JSON_parse Sample.JSON_stringify
                   (Sample.client Sample.boom []) (Sample.withProcess AO_CONFIG.CHAMBER_PID)
                   AO_CONFIG.CHAMBER_PID Sample.boom _ _ _)
                {| Tags := Some [{| name := "Action"; value := Some "Error" |}];
                   Data := Some "boom" |} _ _).
  - reflexivity.
  - reflexivity.
  - intros process tags data. reflexivity.
  - reflexivity.
  - reflexivity.
Defined.

(** C3, refuted as stated: on one and the same answer, without messages and
    with both an output and an error field, the query executor returns the
    output as success while the send-message executor returns the error. *)
Lemma send_message_checks_error_before_output :
  let client := Sample.client Sample.noMessages [] in
  let args := Sample.signedFor AO_CONFIG.CHAMBER_PID "return 1" in
  fst (run client (executeQueryProcess Sample.JSON_parse Sample.JSON_stringify args))
  = Returned {| content := [{| type := "text"; text := "Process output:" ++ JS.nl ++ "out" |}];
                isError := None |}
  /\ fst (run client (executeSendMessage Sample.JSON_parse Sample.JSON_stringify args))
     = Returned {| content := [{| type := "text";
                                  text := "Message sent (ID: MSG) but process error: err" |}];
                   isError := Some true |}.
Proof. split; reflexivity. Qed.

(** C3 as amended, at that answer. *)
Lemma send_message_outcome_sample :
  let client := Sample.client Sample.noMessages [] in
  let args := Sample.signedFor AO_CONFIG.CHAMBER_PID "return 1" in
  fst (run client (executeSendMessage Sample.JSON_parse Sample.JSON_stringify args))
  = Returned (failure "Message sent (ID: MSG) but process error: err")
  /\ fst (run client (executeQueryProcess Sample.JSON_parse Sample.JSON_stringify args))
     = Returned (success ("Process output:" ++ JS.nl ++ "out")).
Proof.
  refine (proj2 (proj2 (proj2 (proj2 (proj2
            (send_message_outcome_priority Sample.JSON_parse Sample.JSON_stringify
               (Sample.client Sample.noMessages [])
               (Sample.signedFor AO_CONFIG.CHAMBER_PID "return 1")
               AO_CONFIG.CHAMBER_PID "{}" "MSG" "{}" tt (Some Sample.noMessages)
               _ _ _ _ _ _ _)))))
            Sample.noMessages "err" "out" _ _ _ _ _).
  - reflexivity.
  - reflexivity.
  - split; [reflexivity | discriminate].
  - reflexivity.
  - intros key. reflexivity.
  - intros process signedBy tags data. reflexivity.
  - intros process id. reflexivity.
  - reflexivity.
  - intros process tags data. reflexivity.
  - reflexivity.
  - split; [reflexivity | discriminate].
  - split; [reflexivity | discriminate].
Defined.

(** C4, refuted as stated: without a wallet and with the identifier
    [short], send-message reports the identifier and says nothing of the
    wallet. *)
Lemma missing_wallet_not_mentioned :
  let client := Sample.client Sample.noMessages [] in
  let envelope := failure ("Error: Invalid process ID " ++ JS.dquote ++ "short" ++ JS.dquote
                           ++ ". Must be a 43-character Arweave transaction ID.") in
  Args.wallet_json (Sample.withProcess "short") = None
  /\ run client (executeSendMessage Sample.JSON_parse Sample.JSON_stringify
                   (Sample.withProcess "short"))
     = (Returned envelope, [])
  /\ JS.includes "wallet" (textOf envelope) = false.
Proof. repeat split. Qed.

(** C4 as amended, at a spawn call without a wallet. *)
Lemma spawn_without_wallet :
  exists envelope,
    run (Sample.client Sample.noMessages [])
        (executeSpawnProcess Sample.JSON_parse (Sample.withProcess "short"))
    = (Returned envelope, [])
    /\ isError envelope = Some true
    /\ JS.includes "wallet" (textOf envelope) = true.
Proof.
  refine (proj1 (proj2
            (unusable_wallet_fails_fast Sample.JSON_parse Sample.JSON_stringify
               (Sample.client Sample.noMessages []) (Sample.withProcess "short") _))).
  left. left. reflexivity.
Defined.

(** C5 at a listing of one result.  Below, a field of 201 characters is cut
    to 200 and marked, and one of 200 is left alone. *)
Lemma list_results_sample :
  fst (run (Sample.client Sample.noMessages [Sample.listed "out"])
           (executeListResults (Sample.withProcess AO_CONFIG.CHAMBER_PID)))
  = Returned (success ("Results for process " ++ AO_CONFIG.CHAMBER_PID ++ ":" ++ JS.nl ++ JS.nl
                       ++ JS.join JS.nl (JS.mapi formatResult [Sample.listed "out"]))).
Proof.
  refine (proj1 (list_results_truncation
                   (Sample.client Sample.noMessages [Sample.listed "out"])
                   (Sample.withProcess AO_CONFIG.CHAMBER_PID) AO_CONFIG.CHAMBER_PID
                   (Sample.listed "out") [] _ _ _)).
  - reflexivity.
  - reflexivity.
  - intros process limit from sort. reflexivity.
Defined.

Example formatResult_201 :
  formatResult (Sample.listed (Sample.field 201)) 0
  = "--- Result 1 (cursor: c1) ---" ++ JS.nl
    ++ "Output: " ++ Sample.field 200 ++ "..." ++ JS.nl.
Proof. vm_compute. reflexivity. Qed.

Example formatResult_200 :
  formatResult (Sample.listed (Sample.field 200)) 0
  = "--- Result 1 (cursor: c1) ---" ++ JS.nl
    ++ "Output: " ++ Sample.field 200 ++ JS.nl.
Proof. vm_compute. reflexivity. Qed.

(** C6 at the name [ao_nonexistent]. *)
Lemma unknown_tool_ao_nonexistent :
  run (Sample.client Sample.noMessages [])
      (handleToolCall Sample.JSON_parse Sample.JSON_stringify "ao_nonexistent" Args.empty)
  = (Returned {| content := [{| type := "text"; text := "Unknown tool: ao_nonexistent" |}];
                 isError := Some true |}, []).
Proof.
  apply (unknown_tool_is_reported Sample.JSON_parse Sample.JSON_stringify
           (Sample.client Sample.noMessages []) "ao_nonexistent" Args.empty).
  simpl. intuition discriminate.
Defined.

(** C7, refuted as stated: a spawn call whose caller supplies an [Action]
    tag hands that tag to the network. *)
Lemma spawn_sends_caller_action_tag :
  snd (run (Sample.client Sample.noMessages [])
           (executeSpawnProcess Sample.JSON_parse (Sample.spawnTagged None)))
  = [Invoked (createDataItemSigner "{}");
     Invoked (spawn AO_CONFIG.AOS_MODULE AO_CONFIG.SCHEDULER tt
                    [{| name := "Action"; value := Some "Boom" |}])].
Proof. reflexivity. Qed.

(** C7 as amended, at a spawn call with a name and a caller's [Action] tag. *)
Lemma spawn_tags_sample :
  [{| name := "Name"; value := Some "demo" |}; {| name := "Action"; value := Some "Boom" |}]
  = ([{| name := "Name"; value := Some "demo" |}]
     ++ callerTags (Sample.spawnTagged (Some "demo")))%list
  /\ forall t,
       In t [{| name := "Name"; value := Some "demo" |};
             {| name := "Action"; value := Some "Boom" |}] ->
       name t = "Action" ->
       In t (callerTags (Sample.spawnTagged (Some "demo"))).
Proof.
  refine (proj2 (proj2 (proj2
            (constructed_tag_sequences Sample.JSON_parse Sample.JSON_stringify
               (Sample.client Sample.noMessages []) (Sample.spawnTagged (Some "demo"))
               (Invoked (spawn AO_CONFIG.AOS_MODULE AO_CONFIG.SCHEDULER tt
                               [{| name := "Name"; value := Some "demo" |};
                                {| name := "Action"; value := Some "Boom" |}]))
               [{| name := "Name"; value := Some "demo" |};
                {| name := "Action"; value := Some "Boom" |}] _))) _).
  - reflexivity.
  - simpl. right. left. reflexivity.
Defined.

(** C8 at code made of an ideographic space, a byte order mark, a line
    separator, a space and a tab. *)
Lemma blank_code_sample :
  isError (failure "Error: code is required. Provide Lua code to execute.") = Some true
  /\ run (Sample.client Sample.noMessages [])
         (executeEvalLua Sample.JSON_parse
            (Scenario.evaluate AO_CONFIG.CHAMBER_PID Scenario.blankCode))
     = (Returned (failure "Error: code is required. Provide Lua code to execute."), []).
Proof.
  apply (blank_code_fails_fast Sample.JSON_parse
           (Sample.client Sample.noMessages [])
           (Scenario.evaluate AO_CONFIG.CHAMBER_PID Scenario.blankCode)
           AO_CONFIG.CHAMBER_PID Scenario.blankCode);
    reflexivity.
Defined.

(** C10 at a call whose action and data are empty and whose limit is 0. *)
Lemma falsy_arguments_sample :
  let client := Sample.client Sample.noMessages [] in
  let args := Sample.falsyOptions AO_CONFIG.CHAMBER_PID in
  snd (run client (executeQueryProcess Sample.JSON_parse Sample.JSON_stringify args))
  = [Invoked (dryrun AO_CONFIG.CHAMBER_PID [{| name := "Action"; value := Some "Info" |}] "{}")]
  /\ snd (run client (executeListResults args))
     = [Invoked (results AO_CONFIG.CHAMBER_PID 10 None "DESC")].
Proof.
  destruct (falsy_arguments_are_defaulted Sample.JSON_parse Sample.JSON_stringify
              (Sample.client Sample.noMessages [])
              (Sample.falsyOptions AO_CONFIG.CHAMBER_PID) AO_CONFIG.CHAMBER_PID
              eq_refl eq_refl) as [Haction [_ Hlimit]].
  split.
  - exact (Haction eq_refl).
  - exact (Hlimit eq_refl).
Defined.

(** The calls of a send-message and of an evaluate-code run that go through:
    signer, message, outcome fetch, in that order. *)
Example executeSendMessage_calls :
  snd (run (Sample.client Sample.boom [])
           (executeSendMessage Sample.JSON_parse Sample.JSON_stringify
              (Sample.signedFor AO_CONFIG.CHAMBER_PID "return 1")))
  = [Invoked (createDataItemSigner "{}");
     Invoked (message AO_CONFIG.CHAMBER_PID tt
                      [{| name := "Action"; value := Some "Transfer" |}] (JS.units "{}"));
     Invoked (result AO_CONFIG.CHAMBER_PID "MSG")].
Proof. reflexivity. Qed.

Example executeEvalLua_calls :
  snd (run (Sample.client Sample.boom [])
           (executeEvalLua Sample.JSON_parse
              (Sample.signedFor AO_CONFIG.CHAMBER_PID "return 1")))
  = [Invoked (createDataItemSigner "{}");
     Invoked (message AO_CONFIG.CHAMBER_PID tt
                      [{| name := "Action"; value := Some "Eval" |}] (JS.units "return 1"));
     Invoked (result AO_CONFIG.CHAMBER_PID "MSG")].
Proof. reflexivity. Qed.

(** A rejected call is caught by the executor and reported in the envelope. *)
Example executeQueryProcess_rejected :
  run (fun R c => Rejected (JS.ErrorObject "network down"))
      (executeQueryProcess Sample.JSON_parse Sample.JSON_stringify
         (Sample.withProcess AO_CONFIG.CHAMBER_PID))
  = (Returned (failure "Error querying process: network down"),
     [Invoked (dryrun (Signer := unit) AO_CONFIG.CHAMBER_PID
                      [{| name := "Action"; value := Some "Info" |}] "{}")]).
Proof. reflexivity. Qed.

(** ** Further properties: outcomes, call sequences, failures, the server *)

Lemma prefix_append (needle rest : string) :
  String.prefix needle (needle ++ rest) = true.
Proof.
  induction needle as [| c needle IH]; simpl.
  - destruct rest; reflexivity.
  - destruct (ascii_dec c c) as [_ | Hneq]; [exact IH | contradiction Hneq; reflexivity].
Qed.

Lemma includes_prefix (needle hay : string) :
  String.prefix needle hay = true -> JS.includes needle hay = true.
Proof. destruct hay; simpl; intros ->; reflexivity. Qed.

Lemma includes_here (needle rest : string) :
  JS.includes needle (needle ++ rest) = true.
Proof. apply includes_prefix, prefix_append. Qed.

Lemma includes_later (needle before rest : string) :
  JS.includes needle rest = true -> JS.includes needle (before ++ rest) = true.
Proof.
  intros Hrest. induction before as [| c before IH]; simpl.
  - exact Hrest.
  - rewrite IH. apply orb_true_r.
Qed.

Lemma includes_cons (needle : string) (c : ascii) (rest : string) :
  JS.includes needle rest = true -> JS.includes needle (String c rest) = true.
Proof. intros Hrest. simpl. rewrite Hrest. apply orb_true_r. Qed.

Section AsyncHandlers.
Context {E : Type -> Type}.

(** A [try] around a program that never raises, awaited and returned at
    once, runs like the program alone: the handler is never entered. *)
Lemma run_tryCatch_unused {A : Type} (P : A -> Prop) (client : Async.Client E)
    (p : Async.t E A) (handler : JS.Thrown -> Async.t E A) :
  ends P False p ->
  run client (tryCatch (Async.bind p (fun a => Return a)) handler) = run client p.
Proof.
  induction p as [a | e | R c k IH]; simpl; intros Hends.
  - reflexivity.
  - contradiction.
  - rewrite (IH (client R c) (Hends (client R c))). reflexivity.
Qed.

End AsyncHandlers.

Section FurtherProperties.

Context {JSONValue Signer : Type}.
Variable JSON_parse : string -> option JSONValue.
Variable JSON_stringify : JSONValue -> string.

Local Abbreviation Client := (Async.Client (aoconnect JSONValue Signer)).

Local Ltac enter executor Hpid guard Hlen :=
  unfold executor; rewrite Hpid, (guard _ Hlen).

(** Decide what is left to decide in a run and compare. *)
Local Ltac settle :=
  repeat match goal with
         | |- context [if ?b then _ else _] => destruct b; simpl
         | |- context [match parseData ?f ?d with _ => _ end] => destruct (parseData f d); simpl
         end;
  reflexivity.

(** X1.  With valid arguments and a client that derives the signer, accepts
    the message as [msgId] and answers the outcome fetch with [res],
    [executeEvalLua] reads the outcome in this order: (1) a non-empty error
    field gives an error envelope, whatever messages and output come with
    it; (2) otherwise a first message tagged [Action = Error] gives an
    error envelope with that message's data; (3) otherwise a first message
    gives success, with the message id, the output or [(no output)], and
    the message's data or [(no data)]; (4) otherwise success with the
    message id and the output or [(no output)]. *)
Theorem eval_outcome_priority (client : Client) (args : Args.t)
    (pid wallet msgId : string) (code : JS.Text) (jwk : JSONValue) (signer : Signer)
    (res : option Response) :
  Args.process_id args = Some pid ->
  String.length pid = 43 ->
  Args.code args = Some code ->
  onlyWhiteSpace code = false ->
  present (Args.wallet_json args) wallet ->
  JSON_parse wallet = Some jwk ->
  (forall key, client _ (createDataItemSigner key) = Fulfilled signer) ->
  (forall process signedBy tags data,
      client _ (message process signedBy tags data) = Fulfilled msgId) ->
  (forall process id, client _ (result process id) = Fulfilled res) ->
  let returned := fst (run client (executeEvalLua JSON_parse args)) in
  (forall e,
      present (Error' res) e ->
      returned = Returned (failure ("Lua execution error:" ++ JS.nl ++ e)))
  /\ (absent (Error' res) ->
      forall m,
        firstMessage (Messages' res) = Some m ->
        actionOf m = Some "Error" ->
        returned
        = Returned (failure ("Lua execution error:" ++ JS.nl ++ JS.ToString (Data m))))
  /\ (absent (Error' res) ->
      forall m,
        firstMessage (Messages' res) = Some m ->
        actionOf m <> Some "Error" ->
        returned
        = Returned (success ("Lua code executed successfully!" ++ JS.nl
                             ++ "Message ID: " ++ msgId ++ JS.nl ++ JS.nl
                             ++ "Output:" ++ JS.nl
                             ++ JS.or (outputData' res) "(no output)" ++ JS.nl ++ JS.nl
                             ++ "Response (Action: " ++ JS.or (actionOf m) "unknown"
                             ++ "):" ++ JS.nl
                             ++ JS.or (Data m) "(no data)")))
  /\ (absent (Error' res) ->
      firstMessage (Messages' res) = None ->
      returned
      = Returned (success ("Lua code executed successfully!" ++ JS.nl
                           ++ "Message ID: " ++ msgId ++ JS.nl ++ JS.nl
                           ++ "Output:" ++ JS.nl
                           ++ JS.or (outputData' res) "(no output)"))).
Proof.
  intros Hpid Hlen Hcode Hblank Hwallet Hjwk Hsigner Hmessage Hresult returned.
  subst returned.
  destruct (truthy_present _ _ Hwallet) as [Hwt Hws].
  enter @executeEvalLua Hpid guard_accepts Hlen.
  rewrite Hcode, (code_guard_accepts code Hblank), Hwt, Hws, Hjwk. simpl.
  rewrite Hsigner. simpl. rewrite Hmessage. simpl. rewrite Hresult. simpl.
  repeat apply conj.
  - intros e Herr.
    destruct (truthy_present _ _ Herr) as [-> ->]. reflexivity.
  - intros Herr m Hfirst Haction.
    rewrite (truthy_absent _ Herr).
    destruct (firstMessage_some _ _ Hfirst) as [rest ->].
    unfold actionOf in Haction. rewrite (strictEq_true _ _ Haction). reflexivity.
  - intros Herr m Hfirst Haction.
    rewrite (truthy_absent _ Herr).
    destruct (firstMessage_some _ _ Hfirst) as [rest ->].
    unfold actionOf in *. rewrite (strictEq_false _ _ Haction).
    destruct (outputData' res) as [[| c s] |]; reflexivity.
  - intros Herr Hfirst.
    rewrite (truthy_absent _ Herr).
    destruct (firstMessage_none _ Hfirst) as [-> | ->];
      destruct (outputData' res) as [[| c s] |]; reflexivity.
Qed.

(** X2.  On the write paths the three calls are made in one order, each
    with what the one before returned: the signer derived from the parsed
    wallet signs the message, and the outcome is fetched for the message id
    the submission returned.  Send-message submits the caller's data, or
    [{}] without any; evaluate-code submits the code as it was given,
    untrimmed. *)
Theorem write_path_call_sequence (client : Client) (args : Args.t)
    (pid wallet msgId : string) (jwk : JSONValue) (signer : Signer) :
  Args.process_id args = Some pid ->
  String.length pid = 43 ->
  present (Args.wallet_json args) wallet ->
  JSON_parse wallet = Some jwk ->
  client _ (createDataItemSigner jwk) = Fulfilled signer ->
  (forall process signedBy tags data,
      client _ (message process signedBy tags data) = Fulfilled msgId) ->
  snd (run client (executeSendMessage JSON_parse JSON_stringify args))
  = [Invoked (createDataItemSigner jwk);
     Invoked (message pid signer
                      ({| name := "Action"; value := Args.action args |} :: callerTags args)
                      (JS.units (JS.or (Args.data args) "{}")));
     Invoked (result pid msgId)]
  /\ (forall code,
         Args.code args = Some code ->
         onlyWhiteSpace code = false ->
         snd (run client (executeEvalLua JSON_parse args))
         = [Invoked (createDataItemSigner jwk);
            Invoked (message pid signer [{| name := "Action"; value := Some "Eval" |}] code);
            Invoked (result pid msgId)]).
Proof.
  intros Hpid Hlen Hwallet Hjwk Hsigner Hmessage.
  destruct (truthy_present _ _ Hwallet) as [Hwt Hws].
  split.
  - enter @executeSendMessage Hpid guard_accepts Hlen.
    rewrite Hwt, Hws, Hjwk. unfold callerTags. simpl.
    rewrite Hsigner. simpl. rewrite Hmessage. simpl.
    destruct (Args.tags args); simpl;
      match goal with |- context [client ?R ?c] => destruct (client R c) as [res | e] end;
      simpl; try reflexivity;
      destruct (Messages' res) as [[| m ms] |]; simpl; settle.
  - intros code Hcode Hblank.
    enter @executeEvalLua Hpid guard_accepts Hlen.
    rewrite Hcode, (code_guard_accepts code Hblank), Hwt, Hws, Hjwk. simpl.
    rewrite Hsigner. simpl. rewrite Hmessage. simpl.
    match goal with |- context [client ?R ?c] => destruct (client R c) as [res | e] end;
      simpl; try reflexivity.
    destruct (JS.truthy (Error' res)); simpl; [reflexivity |].
    destruct (Messages' res) as [[| m ms] |]; simpl; settle.
Qed.

(** X3.  With a wallet that parses, a signer and a spawn that succeeds,
    [executeSpawnProcess] makes exactly two calls, the signer and the spawn,
    and fetches no outcome: the module and the scheduler are the caller's,
    or the configured ones when absent or empty; the envelope is a success
    that reports the new process id, the module and scheduler used, and the
    name when one was given. *)
Theorem spawn_reports_new_process (client : Client) (args : Args.t)
    (wallet newPid : string) (jwk : JSONValue) (signer : Signer) :
  present (Args.wallet_json args) wallet ->
  JSON_parse wallet = Some jwk ->
  client _ (createDataItemSigner jwk) = Fulfilled signer ->
  (forall module scheduler signedBy tags,
      client _ (spawn module scheduler signedBy tags) = Fulfilled newPid) ->
  run client (executeSpawnProcess JSON_parse args)
  = (Returned
       (success ("Process spawned successfully!" ++ JS.nl ++ JS.nl
                 ++ "Process ID: " ++ newPid ++ JS.nl
                 ++ "Module: " ++ JS.or (Args.module args) AO_CONFIG.AOS_MODULE ++ JS.nl
                 ++ "Scheduler: " ++ JS.or (Args.scheduler args) AO_CONFIG.SCHEDULER
                 ++ (if JS.truthy (Args.name args)
                     then JS.nl ++ "Name: " ++ JS.ToString (Args.name args)
                     else "")
                 ++ JS.nl ++ JS.nl
                 ++ "You can now send messages to this process using the ao_send_message tool.")),
     [Invoked (createDataItemSigner jwk);
      Invoked (spawn (JS.or (Args.module args) AO_CONFIG.AOS_MODULE)
                     (JS.or (Args.scheduler args) AO_CONFIG.SCHEDULER)
                     signer
                     ((if JS.truthy (Args.name args)
                       then [{| name := "Name"; value := Args.name args |}]
                       else []) ++ callerTags args)%list)]).
Proof.
  intros Hwallet Hjwk Hsigner Hspawn.
  destruct (truthy_present _ _ Hwallet) as [Hwt Hws].
  unfold executeSpawnProcess, callerTags.
  rewrite Hwt, Hws, Hjwk. simpl.
  rewrite Hsigner. simpl. rewrite Hspawn. simpl.
  destruct (JS.truthy (Args.name args)); destruct (Args.tags args); reflexivity.
Qed.

(** X4.  A call the client rejects is caught by the executor that made it:
    the executor returns, and does not raise, an error envelope made of its
    own prefix and the error's message ([Unknown error] when what was thrown
    is no [Error]), and makes no call after the rejected one.  Here the
    first call of each executor is the rejected one. *)
Theorem first_call_rejected (client : Client) (e : JS.Thrown) (args : Args.t) :
  (forall pid,
      Args.process_id args = Some pid ->
      String.length pid = 43 ->
      let query := dryrun pid
                          ({| name := "Action"; value := Some (JS.or (Args.action args) "Info") |}
                             :: callerTags args)
                          (JS.or (Args.data args) "{}") in
      let listing := results pid (JS.orNumber (Args.limit args) 10) (Args.from args)
                             (JS.or (Args.sort args) "DESC") in
      (client _ query = Rejected e ->
       run client (executeQueryProcess JSON_parse JSON_stringify args)
       = (Returned (failure ("Error querying process: " ++ JS.errorMessage e)),
          [Invoked query]))
      /\ (client _ listing = Rejected e ->
          run client (executeListResults args)
          = (Returned (failure ("Error listing results: " ++ JS.errorMessage e)),
             [Invoked listing])))
  /\ (forall wallet jwk,
         present (Args.wallet_json args) wallet ->
         JSON_parse wallet = Some jwk ->
         client _ (createDataItemSigner jwk) = Rejected e ->
         run client (executeSpawnProcess JSON_parse args)
         = (Returned (failure ("Error spawning process: " ++ JS.errorMessage e)),
            [Invoked (createDataItemSigner jwk)])
         /\ forall pid,
             Args.process_id args = Some pid ->
             String.length pid = 43 ->
             run client (executeSendMessage JSON_parse JSON_stringify args)
             = (Returned (failure ("Error sending message: " ++ JS.errorMessage e)),
                [Invoked (createDataItemSigner jwk)])
             /\ forall code,
                 Args.code args = Some code ->
                 onlyWhiteSpace code = false ->
                 run client (executeEvalLua JSON_parse args)
                 = (Returned (failure ("Error executing Lua code: " ++ JS.errorMessage e)),
                    [Invoked (createDataItemSigner jwk)])).
Proof.
  split.
  - intros pid Hpid Hlen query listing. subst query listing.
    split; intros Hrejected.
    + enter @executeQueryProcess Hpid guard_accepts Hlen.
      unfold callerTags in *. simpl.
      destruct (Args.tags args); simpl in *; rewrite Hrejected; reflexivity.
    + enter @executeListResults Hpid guard_accepts Hlen.
      simpl. rewrite Hrejected. reflexivity.
  - intros wallet jwk Hwallet Hjwk Hrejected.
    destruct (truthy_present _ _ Hwallet) as [Hwt Hws].
    split.
    + unfold executeSpawnProcess. rewrite Hwt, Hws, Hjwk. simpl.
      rewrite Hrejected. reflexivity.
    + intros pid Hpid Hlen. split.
      * enter @executeSendMessage Hpid guard_accepts Hlen.
        rewrite Hwt, Hws, Hjwk. simpl. rewrite Hrejected. reflexivity.
      * intros code Hcode Hblank.
        enter @executeEvalLua Hpid guard_accepts Hlen.
        rewrite Hcode, (code_guard_accepts code Hblank), Hwt, Hws, Hjwk. simpl.
        rewrite Hrejected. reflexivity.
Qed.

(** X5.  On the write paths a failure after the signer was derived is
    reported the same way, without the message id.  When the submission is
    rejected no outcome is fetched, in send-message and in evaluate-code
    alike; when the submission succeeded and the outcome fetch is rejected,
    the message has been sent and the envelope is still the error one,
    carrying the fetch's error and not the id the submission returned. *)
Theorem write_path_failures (client : Client) (e : JS.Thrown) (args : Args.t)
    (pid wallet : string) (jwk : JSONValue) (signer : Signer) :
  Args.process_id args = Some pid ->
  String.length pid = 43 ->
  present (Args.wallet_json args) wallet ->
  JSON_parse wallet = Some jwk ->
  client _ (createDataItemSigner jwk) = Fulfilled signer ->
  let sent := message pid signer
                      ({| name := "Action"; value := Args.action args |} :: callerTags args)
                      (JS.units (JS.or (Args.data args) "{}")) in
  (client _ sent = Rejected e ->
   run client (executeSendMessage JSON_parse JSON_stringify args)
   = (Returned (failure ("Error sending message: " ++ JS.errorMessage e)),
      [Invoked (createDataItemSigner jwk); Invoked sent]))
  /\ (forall msgId,
         client _ sent = Fulfilled msgId ->
         client _ (result pid msgId) = Rejected e ->
         run client (executeSendMessage JSON_parse JSON_stringify args)
         = (Returned (failure ("Error sending message: " ++ JS.errorMessage e)),
            [Invoked (createDataItemSigner jwk); Invoked sent; Invoked (result pid msgId)]))
  /\ (forall code,
         Args.code args = Some code ->
         onlyWhiteSpace code = false ->
         let evaluated := message pid signer [{| name := "Action"; value := Some "Eval" |}]
                                  code in
         (client _ evaluated = Rejected e ->
          run client (executeEvalLua JSON_parse args)
          = (Returned (failure ("Error executing Lua code: " ++ JS.errorMessage e)),
             [Invoked (createDataItemSigner jwk); Invoked evaluated]))
         /\ (forall msgId,
                client _ evaluated = Fulfilled msgId ->
                client _ (result pid msgId) = Rejected e ->
                run client (executeEvalLua JSON_parse args)
                = (Returned (failure ("Error executing Lua code: " ++ JS.errorMessage e)),
                   [Invoked (createDataItemSigner jwk); Invoked evaluated;
                    Invoked (result pid msgId)]))).
Proof.
  intros Hpid Hlen Hwallet Hjwk Hsigner sent. subst sent.
  destruct (truthy_present _ _ Hwallet) as [Hwt Hws].
  unfold callerTags. split; [| split].
  - intros Hsent.
    enter @executeSendMessage Hpid guard_accepts Hlen.
    rewrite Hwt, Hws, Hjwk. simpl. rewrite Hsigner. simpl.
    destruct (Args.tags args); simpl in *; rewrite Hsent; reflexivity.
  - intros msgId Hsent Hfetch.
    enter @executeSendMessage Hpid guard_accepts Hlen.
    rewrite Hwt, Hws, Hjwk. simpl. rewrite Hsigner. simpl.
    destruct (Args.tags args); simpl in *; rewrite Hsent; simpl; rewrite Hfetch;
      reflexivity.
  - intros code Hcode Hblank. cbv zeta. split.
    + intros Hsent.
      enter @executeEvalLua Hpid guard_accepts Hlen.
      rewrite Hcode, (code_guard_accepts code Hblank), Hwt, Hws, Hjwk. simpl.
      rewrite Hsigner. simpl. rewrite Hsent. reflexivity.
    + intros msgId Hsent Hfetch.
      enter @executeEvalLua Hpid guard_accepts Hlen.
      rewrite Hcode, (code_guard_accepts code Hblank), Hwt, Hws, Hjwk. simpl.
      rewrite Hsigner. simpl. rewrite Hsent. simpl. rewrite Hfetch. reflexivity.
Qed.

(** X6.  Once the outcome of a sent message has been fetched, whatever it
    is, the text [executeSendMessage] returns contains the message id the
    submission returned: in the error envelopes as in the success ones. *)
Theorem send_message_reports_id (client : Client) (args : Args.t)
    (pid wallet msgId : string) (jwk : JSONValue) (signer : Signer)
    (res : option Response) :
  Args.process_id args = Some pid ->
  String.length pid = 43 ->
  present (Args.wallet_json args) wallet ->
  JSON_parse wallet = Some jwk ->
  (forall key, client _ (createDataItemSigner key) = Fulfilled signer) ->
  (forall process signedBy tags data,
      client _ (message process signedBy tags data) = Fulfilled msgId) ->
  (forall process id, client _ (result process id) = Fulfilled res) ->
  exists envelope,
    fst (run client (executeSendMessage JSON_parse JSON_stringify args)) = Returned envelope
    /\ JS.includes msgId (textOf envelope) = true.
Proof.
  intros Hpid Hlen Hwallet Hjwk Hsigner Hmessage Hresult.
  destruct (truthy_present _ _ Hwallet) as [Hwt Hws].
  enter @executeSendMessage Hpid guard_accepts Hlen.
  rewrite Hwt, Hws, Hjwk.
  cbn [tryCatch Async.bind await negb].
  rewrite run_Call, Hsigner. cbn [tryCatch Async.bind await fst].
  rewrite run_Call, Hmessage. cbn [tryCatch Async.bind await fst].
  rewrite run_Call, Hresult. cbn [tryCatch Async.bind await fst].
  repeat (cbn [tryCatch];
          match goal with
          | |- context [tryCatch (match ?x with _ => _ end) _] => destruct x
          | |- context [tryCatch (if ?b then _ else _) _] => destruct b
          end);
    (eexists; split; [reflexivity |]);
    cbn [textOf content text];
    repeat first [apply includes_here | apply includes_later].
Qed.

(** X12.  What each executor may call, and in which order, whatever the
    arguments and the client's answers: the query executor calls [dryrun]
    at most once and nothing else, the listing [results] at most once and
    nothing else, so neither ever derives a signer; the spawn executor
    stops within [createDataItemSigner], [spawn] and never fetches an
    outcome; send-message and evaluate-code stop within
    [createDataItemSigner], [message], [result]. *)
Theorem call_protocols (client : Client) (args : Args.t) :
  startOf (map callName (snd (run client (executeQueryProcess JSON_parse JSON_stringify args))))
          ["dryrun"] = true
  /\ startOf (map callName (snd (run client (executeListResults args))))
             ["results"] = true
  /\ startOf (map callName (snd (run client (executeSpawnProcess JSON_parse args))))
             ["createDataItemSigner"; "spawn"] = true
  /\ startOf (map callName (snd (run client (executeSendMessage JSON_parse JSON_stringify args))))
             ["createDataItemSigner"; "message"; "result"] = true
  /\ startOf (map callName (snd (run client (executeEvalLua JSON_parse args))))
             ["createDataItemSigner"; "message"; "result"] = true.
Proof.
  unfold executeQueryProcess, executeListResults, executeSpawnProcess,
    executeSendMessage, executeEvalLua.
  repeat apply conj;
    repeat (cbn [tryCatch Async.bind await];
            rewrite ?run_Call, ?run_Return, ?run_Throw;
            cbn [fst snd];
            match goal with
            | |- context [client ?R ?c] => destruct (client R c)
            | |- context [run client (if ?b then _ else _)] => destruct b
            | |- context [run client (match ?x with _ => _ end)] => destruct x
            | |- context [tryCatch (if ?b then _ else _) _] => destruct b
            | |- context [tryCatch (match ?x with _ => _ end) _] => destruct x
            end);
    reflexivity.
Qed.

(** X13.  A listing with nothing to show is no error: when the client
    answers nothing, an answer without edges, or an empty list of edges,
    [executeListResults] returns the success envelope saying that no
    results were found for the process. *)
Theorem list_results_empty (client : Client) (args : Args.t) (pid : string)
    (res : option ResultsPage) :
  Args.process_id args = Some pid ->
  String.length pid = 43 ->
  (forall process limit from sort,
      client _ (results process limit from sort) = Fulfilled res) ->
  edges' res = None \/ edges' res = Some [] ->
  fst (run client (executeListResults args))
  = Returned (success ("No results found for process " ++ pid)).
Proof.
  intros Hpid Hlen Hresults Hnone.
  enter @executeListResults Hpid guard_accepts Hlen.
  simpl. rewrite Hresults. simpl.
  destruct Hnone as [-> | ->]; reflexivity.
Qed.

(** X14.  With a 43-character process identifier the read paths make
    exactly one call each, whatever the client answers: the query is a
    [dryrun] on that process with the [Action] tag (the caller's action, or
    [Info]) followed by the caller's tags and with the caller's data or
    [{}]; the listing is a [results] call with the caller's limit or 10,
    the cursor as given, and the caller's sort order or [DESC]. *)
Theorem read_path_requests (client : Client) (args : Args.t) (pid : string) :
  Args.process_id args = Some pid ->
  String.length pid = 43 ->
  snd (run client (executeQueryProcess JSON_parse JSON_stringify args))
  = [Invoked (dryrun pid
                     ({| name := "Action"; value := Some (JS.or (Args.action args) "Info") |}
                        :: callerTags args)
                     (JS.or (Args.data args) "{}"))]
  /\ snd (run client (executeListResults args))
     = [Invoked (results pid (JS.orNumber (Args.limit args) 10) (Args.from args)
                         (JS.or (Args.sort args) "DESC"))].
Proof.
  intros Hpid Hlen. split.
  - enter @executeQueryProcess Hpid guard_accepts Hlen.
    unfold callerTags. simpl.
    destruct (Args.tags args); simpl;
      match goal with |- context [client ?R ?c] => destruct (client R c) as [response | e] end;
      simpl; try reflexivity;
      destruct (Messages response) as [[| m ms] |]; simpl; settle.
  - enter @executeListResults Hpid guard_accepts Hlen.
    simpl.
    match goal with |- context [client ?R ?c] => destruct (client R c) as [res | e] end;
      simpl; try reflexivity.
    destruct (edges' res) as [[| edge rest] |]; reflexivity.
Qed.

(** Follow every branch of an executor down to the envelope it returns. *)
Local Ltac every_leaf :=
  repeat (cbn [ends tryCatch Async.bind await];
          match goal with
          | |- forall _ : Settled _, _ => intros [? | ?]
          | |- forall _ : JS.Thrown, _ => intros ?
          | |- ends _ _ (if ?b then _ else _) => destruct b
          | |- ends _ _ (match ?x with _ => _ end) => destruct x
          | |- True => exact I
          | |- oneTextItem _ => eexists; split; reflexivity
          | |- unknownToolNotice _ = false => reflexivity
          end).

Lemma handleToolCall_always_returns (name : string) (args : Args.t) :
  ends oneTextItem False
       (handleToolCall (Signer := Signer) JSON_parse JSON_stringify name args).
Proof.
  unfold handleToolCall.
  repeat match goal with
         | |- ends _ _ (if ?b then _ else _) => destruct b
         end;
    [apply ends_tryCatch; unfold executeQueryProcess
    | apply ends_tryCatch; unfold executeSendMessage
    | apply ends_tryCatch; unfold executeSpawnProcess
    | apply ends_tryCatch; unfold executeEvalLua
    | apply ends_tryCatch; unfold executeListResults
    | ];
    every_leaf.
Qed.

(** X7.  The server's call-tool handler adds nothing to the dispatcher:
    for every request it makes the calls and returns the envelope of
    [handleToolCall] on the request's name and arguments, an absent
    argument object standing for the empty one.  The executors catch what
    the client throws, so the handler's own [catch] is never entered. *)
Theorem call_tool_handler_is_dispatch (client : Client) (request : CallToolRequest.params) :
  run client (callToolHandler JSON_parse JSON_stringify request)
  = run client (handleToolCall JSON_parse JSON_stringify
                  (CallToolRequest.name request)
                  (match CallToolRequest.arguments request with
                   | Some given => given
                   | None => Args.empty
                   end)).
Proof.
  unfold callToolHandler.
  apply (run_tryCatch_unused oneTextItem).
  apply handleToolCall_always_returns.
Qed.

(** X8.  A call-tool request that names a registered tool and carries no
    arguments is answered with an error envelope, and nothing is called:
    every tool requires an argument that its executor checks first. *)
Theorem call_without_arguments (client : Client) (tool : Tool.t) :
  In tool TOOLS ->
  exists envelope,
    run client (callToolHandler JSON_parse JSON_stringify
                  {| CallToolRequest.name := Tool.name tool;
                     CallToolRequest.arguments := None |})
    = (Returned envelope, [])
    /\ isError envelope = Some true.
Proof.
  intros Htool. unfold callToolHandler.
  rewrite (run_tryCatch_unused oneTextItem) by apply handleToolCall_always_returns.
  simpl in Htool.
  repeat (destruct Htool as [<- | Htool]; [eexists; split; reflexivity |]).
  contradiction.
Qed.

(** X9.  The dispatcher answers with its unknown-tool notice exactly for
    the names that are not in the registry: every name [TOOLS] lists is
    routed to an executor, and no executor's text begins like the notice. *)
Theorem unknown_notice_iff_unregistered (client : Client) (name : string) (args : Args.t) :
  exists envelope,
    fst (run client (handleToolCall JSON_parse JSON_stringify name args)) = Returned envelope
    /\ (unknownToolNotice envelope = true <-> ~ In name (map Tool.name TOOLS)).
Proof.
  destruct (in_dec string_dec name (map Tool.name TOOLS)) as [Hin | Hout].
  - assert (Hends : ends (fun envelope => unknownToolNotice envelope = false) False
                         (handleToolCall (Signer := Signer) JSON_parse JSON_stringify name args)).
    { simpl in Hin.
      repeat (destruct Hin as [<- | Hin];
              [apply ends_tryCatch; every_leaf |]).
      contradiction. }
    destruct (ends_run _ _ Hends client) as [envelope [Hrun Hnotice]].
    exists envelope. split; [exact Hrun |].
    rewrite Hnotice. split; [discriminate | contradiction].
  - exists {| content := [{| type := "text"; text := "Unknown tool: " ++ name |}];
              isError := Some true |}.
    split.
    + unfold handleToolCall.
      repeat match goal with
             | |- context [String.eqb name ?known] =>
                 destruct (String.eqb_spec name known) as [-> | _];
                 [exfalso; apply Hout; simpl; tauto |]
             end.
      reflexivity.
    + split; [intros _; exact Hout | intros _].
      unfold unknownToolNotice. cbn [textOf content text]. apply prefix_append.
Qed.

(** X10.  What the registry declares as required is what the executors
    check, with one exception.  For every tool and every key of its
    [required] list other than [action], arguments in which that key is
    absent or empty are answered with an error envelope before anything is
    called.  The [action] of send-message is not checked: without it, and
    with the rest valid, the message is submitted all the same, under an
    [Action] tag whose value is undefined. *)
Theorem required_arguments_are_checked (client : Client) (args : Args.t) :
  (forall tool key,
      In tool TOOLS ->
      In key (Tool.required tool) ->
      key <> "action" ->
      missing key args ->
      exists envelope,
        run client (handleToolCall JSON_parse JSON_stringify (Tool.name tool) args)
        = (Returned envelope, [])
        /\ isError envelope = Some true)
  /\ (forall pid wallet jwk signer,
         Args.action args = None ->
         Args.process_id args = Some pid ->
         String.length pid = 43 ->
         present (Args.wallet_json args) wallet ->
         JSON_parse wallet = Some jwk ->
         client _ (createDataItemSigner jwk) = Fulfilled signer ->
         nth_error (snd (run client (handleToolCall JSON_parse JSON_stringify
                                       "ao_send_message" args))) 1
         = Some (Invoked (message pid signer
                                  ({| name := "Action"; value := None |} :: callerTags args)
                                  (JS.units (JS.or (Args.data args) "{}"))))).
Proof.
  split.
  - intros tool key Htool Hkey Hnot Habsent.
    simpl in Htool.
    repeat (destruct Htool as [<- | Htool]; [| try contradiction]);
      simpl in Hkey;
      repeat (destruct Hkey as [<- | Hkey]; [| try contradiction]);
      try (contradiction Hnot; reflexivity);
      cbn in Habsent;
      first [apply truthy_absent in Habsent | apply truthyText_missing in Habsent];
      cbn [handleToolCall Tool.name String.eqb Ascii.eqb Bool.eqb];
      unfold executeQueryProcess, executeSendMessage, executeSpawnProcess,
        executeEvalLua, executeListResults;
      rewrite ?Habsent; cbn [negb orb];
      repeat (match goal with
              | |- context [tryCatch (if ?b then _ else _) _] => destruct b
              end; rewrite ?Habsent; cbn [negb orb]);
      eexists; split; reflexivity.
  - intros pid wallet jwk signer Haction Hpid Hlen Hwallet Hjwk Hsigner.
    destruct (truthy_present _ _ Hwallet) as [Hwt Hws].
    cbn [handleToolCall String.eqb Ascii.eqb Bool.eqb].
    enter @executeSendMessage Hpid guard_accepts Hlen.
    rewrite Hwt, Hws, Hjwk, Haction. unfold callerTags.
    cbn [tryCatch Async.bind await negb].
    rewrite run_Call, Hsigner. cbn [tryCatch Async.bind await snd].
    destruct (Args.tags args); rewrite run_Call; reflexivity.
Qed.

(** X11.  Every envelope the dispatcher returns, from whichever branch of
    whichever executor, carries a non-empty text, and its error flag is
    either absent or true: success is never written as [isError: false]. *)
Theorem envelopes_are_well_formed (client : Client) (name : string) (args : Args.t) :
  exists envelope,
    fst (run client (handleToolCall JSON_parse JSON_stringify name args)) = Returned envelope
    /\ wellFormed envelope.
Proof.
  apply ends_run. unfold handleToolCall.
  repeat match goal with
         | |- ends _ _ (if ?b then _ else _) => destruct b
         end;
    try apply ends_tryCatch;
    unfold executeQueryProcess, executeSendMessage, executeSpawnProcess,
      executeEvalLua, executeListResults;
    repeat (cbn [ends tryCatch Async.bind await];
            match goal with
            | |- forall _ : Settled _, _ => intros [? | ?]
            | |- forall _ : JS.Thrown, _ => intros ?
            | |- ends _ _ (if ?b then _ else _) => destruct b
            | |- ends _ _ (match ?x with _ => _ end) => destruct x
            | |- True => exact I
            | |- wellFormed _ => split; [cbn; discriminate | cbn; auto]
            end).
Qed.

(** X15.  An executor reads no argument its tool's schema does not declare:
    for every registered tool, two argument objects that hold the same
    values under the keys of the tool's [inputSchema.properties] are
    dispatched to the same program, so they make the same calls and get the
    same envelope against every client. *)
Theorem undeclared_arguments_are_ignored (tool : Tool.t) (a b : Args.t) :
  In tool TOOLS ->
  (forall key type, In (key, type) (Tool.properties tool) -> sameArg key a b) ->
  handleToolCall (Signer := Signer) JSON_parse JSON_stringify (Tool.name tool) a
  = handleToolCall JSON_parse JSON_stringify (Tool.name tool) b.
Proof.
  intros Htool Hsame.
  simpl in Htool.
  repeat (destruct Htool as [<- | Htool]; [| try contradiction]);
    cbn [Tool.properties] in Hsame;
    repeat match type of Hsame with
           | forall key type, In (key, type) ((?k, ?t) :: ?rest) -> _ =>
               let H := fresh "Hfield" in
               pose proof (Hsame k t (or_introl eq_refl)) as H;
               cbn in H;
               assert (Hrest : forall key type, In (key, type) rest -> sameArg key a b)
                 by (intros key type Hin; apply (Hsame key type); right; exact Hin);
               clear Hsame; rename Hrest into Hsame
           end;
    cbn [handleToolCall Tool.name String.eqb Ascii.eqb Bool.eqb];
    unfold executeQueryProcess, executeSendMessage, executeSpawnProcess,
      executeEvalLua, executeListResults;
    repeat match goal with
           | H : _ a = _ b |- _ => rewrite H; clear H
           end;
    reflexivity.
Qed.

End FurtherProperties.

(** ** The further properties at work on sample calls *)

(** X1 at an outcome that has an error field beside a message and output. *)
Lemma eval_error_field_first :
  fst (run (Sample.client Scenario.failedEval [])
           (executeEvalLua Sample.JSON_parse
              (Sample.signedFor AO_CONFIG.CHAMBER_PID "return 1")))
  = Returned (failure ("Lua execution error:" ++ JS.nl ++ "attempt to call a nil value")).
Proof.
  refine (proj1 (eval_outcome_priority Sample.JSON_parse
                   (Sample.client Scenario.failedEval [])
                   (Sample.signedFor AO_CONFIG.CHAMBER_PID "return 1")
                   AO_CONFIG.CHAMBER_PID "{}" "MSG" (JS.units "return 1") "{}" tt
                   (Some Scenario.failedEval) _ _ _ _ _ _ _ _ _)
                "attempt to call a nil value" _).
  - reflexivity.
  - reflexivity.
  - reflexivity.
  - reflexivity.
  - split; [reflexivity | discriminate].
  - reflexivity.
  - intros key. reflexivity.
  - intros process signedBy tags data. reflexivity.
  - intros process id. reflexivity.
  - split; [reflexivity | discriminate].
Defined.

(** X2 at a send-message call. *)
Lemma send_message_three_calls :
  snd (run (Sample.client Sample.boom [])
           (executeSendMessage Sample.JSON_parse Sample.JSON_stringify
              (Sample.signedFor AO_CONFIG.CHAMBER_PID "return 1")))
  = [Invoked (createDataItemSigner "{}");
     Invoked (message AO_CONFIG.CHAMBER_PID tt
                      [{| name := "Action"; value := Some "Transfer" |}] (JS.units "{}"));
     Invoked (result AO_CONFIG.CHAMBER_PID "MSG")].
Proof.
  refine (proj1 (write_path_call_sequence Sample.JSON_parse Sample.JSON_stringify
                   (Sample.client Sample.boom [])
                   (Sample.signedFor AO_CONFIG.CHAMBER_PID "return 1")
                   AO_CONFIG.CHAMBER_PID "{}" "MSG" "{}" tt _ _ _ _ _ _)).
  - reflexivity.
  - reflexivity.
  - split; [reflexivity | discriminate].
  - reflexivity.
  - reflexivity.
  - intros process signedBy tags data. reflexivity.
Defined.

(** X3 at a spawn call that gives a name and nothing else. *)
Lemma spawn_named_demo :
  snd (run (Sample.client Sample.noMessages [])
           (executeSpawnProcess Sample.JSON_parse Scenario.spawnNamed))
  = [Invoked (createDataItemSigner "{}");
     Invoked (spawn AO_CONFIG.AOS_MODULE AO_CONFIG.SCHEDULER tt
                    [{| name := "Name"; value := Some "demo" |}])].
Proof.
  refine (f_equal snd
            (spawn_reports_new_process Sample.JSON_parse
               (Sample.client Sample.noMessages []) Scenario.spawnNamed
               "{}" "NEW" "{}" tt _ _ _ _)).
  - split; [reflexivity | discriminate].
  - reflexivity.
  - reflexivity.
  - intros module scheduler signedBy tags. reflexivity.
Defined.

(** X4 at a query whose [dryrun] is rejected. *)
Lemma query_network_down :
  run (Scenario.unreachable (JS.ErrorObject "network down"))
      (executeQueryProcess Sample.JSON_parse Sample.JSON_stringify
         (Sample.withProcess AO_CONFIG.CHAMBER_PID))
  = (Returned (failure "Error querying process: network down"),
     [Invoked (dryrun AO_CONFIG.CHAMBER_PID
                      [{| name := "Action"; value := Some "Info" |}] "{}")]).
Proof.
  refine (proj1 (proj1 (first_call_rejected Sample.JSON_parse Sample.JSON_stringify
                          (Scenario.unreachable (JS.ErrorObject "network down"))
                          (JS.ErrorObject "network down")
                          (Sample.withProcess AO_CONFIG.CHAMBER_PID))
                       AO_CONFIG.CHAMBER_PID _ _) _).
  - reflexivity.
  - reflexivity.
  - reflexivity.
Defined.

(** X5 at a send-message call whose outcome fetch is rejected with a value
    that is no [Error]. *)
Lemma send_message_fetch_fails :
  run (Scenario.fetchFails JS.OtherValue)
      (executeSendMessage Sample.JSON_parse Sample.JSON_stringify
         (Sample.signedFor AO_CONFIG.CHAMBER_PID "return 1"))
  = (Returned (failure "Error sending message: Unknown error"),
     [Invoked (createDataItemSigner "{}");
      Invoked (message AO_CONFIG.CHAMBER_PID tt
                       [{| name := "Action"; value := Some "Transfer" |}] (JS.units "{}"));
      Invoked (result AO_CONFIG.CHAMBER_PID "MSG")]).
Proof.
  refine (proj1 (proj2 (write_path_failures Sample.JSON_parse Sample.JSON_stringify
                          (Scenario.fetchFails JS.OtherValue) JS.OtherValue
                          (Sample.signedFor AO_CONFIG.CHAMBER_PID "return 1")
                          AO_CONFIG.CHAMBER_PID "{}" "{}" tt _ _ _ _ _))
                "MSG" _ _).
  - reflexivity.
  - reflexivity.
  - split; [reflexivity | discriminate].
  - reflexivity.
  - reflexivity.
  - reflexivity.
  - reflexivity.
Defined.

(** X6 at a send-message call answered with an error-tagged message. *)
Lemma send_message_id_sample :
  exists envelope,
    fst (run (Sample.client Sample.boom [])
             (executeSendMessage Sample.JSON_parse Sample.JSON_stringify
                (Sample.signedFor AO_CONFIG.CHAMBER_PID "return 1")))
    = Returned envelope
    /\ JS.includes "MSG" (textOf envelope) = true.
Proof.
  refine (send_message_reports_id Sample.JSON_parse Sample.JSON_stringify
            (Sample.client Sample.boom [])
            (Sample.signedFor AO_CONFIG.CHAMBER_PID "return 1")
            AO_CONFIG.CHAMBER_PID "{}" "MSG" "{}" tt (Some Sample.boom) _ _ _ _ _ _ _).
  - reflexivity.
  - reflexivity.
  - split; [reflexivity | discriminate].
  - reflexivity.
  - intros key. reflexivity.
  - intros process signedBy tags data. reflexivity.
  - intros process id. reflexivity.
Defined.

(** X8 at the evaluate-code tool. *)
Lemma eval_without_arguments :
  exists envelope,
    run (Sample.client Sample.noMessages [])
        (callToolHandler Sample.JSON_parse Sample.JSON_stringify
           {| CallToolRequest.name := "ao_eval_lua"; CallToolRequest.arguments := None |})
    = (Returned envelope, [])
    /\ isError envelope = Some true.
Proof.
  refine (call_without_arguments Sample.JSON_parse Sample.JSON_stringify
            (Sample.client Sample.noMessages [])
            {| Tool.name := "ao_eval_lua";
               Tool.properties := [("process_id", "string"); ("code", "string");
                                   ("wallet_json", "string")];
               Tool.required := ["process_id"; "code"; "wallet_json"] |} _).
  simpl. tauto.
Defined.

(** X10 at an evaluate-code call without its code. *)
Lemma eval_without_code :
  exists envelope,
    run (Sample.client Sample.noMessages [])
        (handleToolCall Sample.JSON_parse Sample.JSON_stringify "ao_eval_lua"
           (Sample.withProcess AO_CONFIG.CHAMBER_PID))
    = (Returned envelope, [])
    /\ isError envelope = Some true.
Proof.
  refine (proj1 (required_arguments_are_checked Sample.JSON_parse Sample.JSON_stringify
                   (Sample.client Sample.noMessages [])
                   (Sample.withProcess AO_CONFIG.CHAMBER_PID))
                {| Tool.name := "ao_eval_lua";
                   Tool.properties := [("process_id", "string"); ("code", "string");
                                       ("wallet_json", "string")];
                   Tool.required := ["process_id"; "code"; "wallet_json"] |}
                "code" _ _ _ _).
  - simpl. tauto.
  - simpl. tauto.
  - discriminate.
  - left. reflexivity.
Defined.

(** X10, second part, at a send-message call without its action. *)
Example send_message_without_action :
  snd (run (Sample.client Sample.noMessages [])
           (handleToolCall Sample.JSON_parse Sample.JSON_stringify "ao_send_message"
              (Scenario.noAction AO_CONFIG.CHAMBER_PID)))
  = [Invoked (createDataItemSigner "{}");
     Invoked (message AO_CONFIG.CHAMBER_PID tt [{| name := "Action"; value := None |}]
                      (JS.units "{}"));
     Invoked (result AO_CONFIG.CHAMBER_PID "MSG")].
Proof. reflexivity. Qed.

(** X13 at a client that lists no edge. *)
Lemma list_results_nothing :
  fst (run (Sample.client Sample.noMessages [])
           (executeListResults (Sample.withProcess AO_CONFIG.CHAMBER_PID)))
  = Returned (success ("No results found for process " ++ AO_CONFIG.CHAMBER_PID)).
Proof.
  refine (list_results_empty (Sample.client Sample.noMessages [])
            (Sample.withProcess AO_CONFIG.CHAMBER_PID) AO_CONFIG.CHAMBER_PID
            (Some {| edges := Some [] |}) _ _ _ _).
  - reflexivity.
  - reflexivity.
  - intros process limit from sort. reflexivity.
  - right. reflexivity.
Defined.

(** X14 at a call that gives the process and nothing else. *)
Lemma read_path_defaults :
  snd (run (Sample.client Sample.noMessages [])
           (executeQueryProcess Sample.JSON_parse Sample.JSON_stringify
              (Sample.withProcess AO_CONFIG.CHAMBER_PID)))
  = [Invoked (dryrun AO_CONFIG.CHAMBER_PID [{| name := "Action"; value := Some "Info" |}] "{}")]
  /\ snd (run (Sample.client Sample.noMessages [])
              (executeListResults (Sample.withProcess AO_CONFIG.CHAMBER_PID)))
     = [Invoked (results AO_CONFIG.CHAMBER_PID 10 None "DESC")].
Proof.
  refine (read_path_requests Sample.JSON_parse Sample.JSON_stringify
            (Sample.client Sample.noMessages [])
            (Sample.withProcess AO_CONFIG.CHAMBER_PID) AO_CONFIG.CHAMBER_PID _ _).
  - reflexivity.
  - reflexivity.
Defined.

(** X15 at the listing tool: the action, the code and the wallet of a call
    make no difference to it. *)
Lemma list_results_ignores_wallet :
  handleToolCall (Signer := unit) Sample.JSON_parse Sample.JSON_stringify "ao_list_results"
    (Sample.withProcess AO_CONFIG.CHAMBER_PID)
  = handleToolCall Sample.JSON_parse Sample.JSON_stringify "ao_list_results"
      (Sample.signedFor AO_CONFIG.CHAMBER_PID "return 1").
Proof.
  refine (undeclared_arguments_are_ignored Sample.JSON_parse Sample.JSON_stringify
            {| Tool.name := "ao_list_results";
               Tool.properties := [("process_id", "string"); ("limit", "number");
                                   ("from", "string"); ("sort", "string")];
               Tool.required := ["process_id"] |}
            (Sample.withProcess AO_CONFIG.CHAMBER_PID)
            (Sample.signedFor AO_CONFIG.CHAMBER_PID "return 1") _ _).
  - simpl. tauto.
  - intros key type Hin. simpl in Hin.
    repeat (destruct Hin as [Hin | Hin]; [injection Hin as <- <-; reflexivity |]).
    contradiction.
Defined.

(** ** Numbering of the listed results, and the bounds of the code check *)

Lemma prefix_extends (needle hay rest : string) :
  String.prefix needle hay = true -> String.prefix needle (hay ++ rest) = true.
Proof.
  revert hay. induction needle as [| c needle IH]; intros [| c' hay]; simpl;
    try reflexivity; try discriminate.
  - destruct rest; reflexivity.
  - destruct (ascii_dec c c'); [apply IH | discriminate].
Qed.

Lemma prefix_itself (s : string) : String.prefix s s = true.
Proof.
  rewrite <- (append_empty_r s) at 2. apply prefix_append.
Qed.

Lemma mapiFrom_nth {A B : Type} (f : A -> nat -> B) (xs : list A) (start i : nat) (x : A) :
  nth_error xs i = Some x ->
  nth_error (JS.mapiFrom start f xs) i = Some (f x (start + i)).
Proof.
  revert start i. induction xs as [| y ys IH]; intros start [| i]; simpl; intros Hnth;
    try discriminate.
  - injection Hnth as ->. rewrite Nat.add_0_r. reflexivity.
  - rewrite (IH (S start) i Hnth). rewrite Nat.add_succ_r. reflexivity.
Qed.

Lemma mapiFrom_length {A B : Type} (f : A -> nat -> B) (xs : list A) (start : nat) :
  List.length (JS.mapiFrom start f xs) = List.length xs.
Proof.
  revert start. induction xs as [| y ys IH]; intros start; simpl; [| rewrite IH]; reflexivity.
Qed.

(** X16.  With a 43-character process identifier and a client that lists
    at least one result, the text [executeListResults] returns is the
    heading followed by one block per result, joined by line breaks, in the
    order the client returned them and numbered from 1: the block at
    position [i] is the rendering of the result at position [i], and it
    opens with the line [--- Result i+1 (cursor: ...) ---] that shows this
    result's cursor. *)
Theorem results_are_numbered_in_order {JSONValue Signer : Type}
    (client : Async.Client (aoconnect JSONValue Signer)) (args : Args.t) (pid : string)
    (listed : Edge) (others : list Edge) :
  Args.process_id args = Some pid ->
  String.length pid = 43 ->
  (forall process limit from sort,
      client _ (results process limit from sort)
      = Fulfilled (Some {| edges := Some (listed :: others) |})) ->
  exists blocks,
    fst (run client (executeListResults args))
    = Returned (success ("Results for process " ++ pid ++ ":" ++ JS.nl ++ JS.nl
                         ++ JS.join JS.nl blocks))
    /\ List.length blocks = List.length (listed :: others)
    /\ forall i edge,
        nth_error (listed :: others) i = Some edge ->
        nth_error blocks i = Some (formatResult edge i)
        /\ String.prefix ("--- Result " ++ JS.numberToString (i + 1)
                          ++ " (cursor: " ++ cursor edge ++ ") ---" ++ JS.nl)
                         (formatResult edge i) = true.
Proof.
  intros Hpid Hlen Hresults.
  exists (JS.mapi formatResult (listed :: others)). repeat apply conj.
  - unfold executeListResults. rewrite Hpid, (guard_accepts _ Hlen).
    cbn [tryCatch Async.bind await]. rewrite run_Call, Hresults. reflexivity.
  - apply mapiFrom_length.
  - intros i edge Hnth. split.
    + apply (mapiFrom_nth formatResult (listed :: others) 0 i edge Hnth).
    + unfold formatResult.
      remember ("--- Result " ++ JS.numberToString (i + 1)
                ++ " (cursor: " ++ cursor edge ++ ") ---" ++ JS.nl) as header.
      destruct (JS.truthy (Error (node edge)));
        destruct (JS.truthy (Some (JS.or (outputData (node edge)) "")));
        destruct (Messages (node edge)) as [[| m ms] |];
        try destruct (JS.truthy (Data m));
        repeat apply prefix_extends; apply prefix_itself.
Qed.

(** X16 at a listing of two results: the second block is numbered 2. *)
Lemma second_result_is_numbered_2 :
  exists blocks,
    fst (run (Sample.client Sample.noMessages [Sample.listed "first"; Sample.listed "second"])
             (executeListResults (Sample.withProcess AO_CONFIG.CHAMBER_PID)))
    = Returned (success ("Results for process " ++ AO_CONFIG.CHAMBER_PID ++ ":"
                         ++ JS.nl ++ JS.nl ++ JS.join JS.nl blocks))
    /\ List.length blocks = 2
    /\ nth_error blocks 1
       = Some ("--- Result 2 (cursor: c1) ---" ++ JS.nl ++ "Output: second" ++ JS.nl).
Proof.
  destruct (results_are_numbered_in_order
              (Sample.client Sample.noMessages [Sample.listed "first"; Sample.listed "second"])
              (Sample.withProcess AO_CONFIG.CHAMBER_PID) AO_CONFIG.CHAMBER_PID
              (Sample.listed "first") [Sample.listed "second"]
              eq_refl eq_refl (fun _ _ _ _ => eq_refl))
    as [blocks [Htext [Hcount Hblock]]].
  exists blocks. split; [exact Htext |]. split; [exact Hcount |].
  exact (proj1 (Hblock 1 (Sample.listed "second") eq_refl)).
Defined.

(** X17.  With a 43-character process identifier, [executeEvalLua] answers
    that code is required exactly when the code is absent, empty or made of
    white space only, white space being every code unit [trim] removes:
    code with anything else in it is never turned away as missing, whatever
    the wallet and the client do next. *)
Theorem code_required_iff_blank {JSONValue Signer : Type}
    (JSON_parse : string -> option JSONValue)
    (client : Async.Client (aoconnect JSONValue Signer)) (args : Args.t) (pid : string) :
  Args.process_id args = Some pid ->
  String.length pid = 43 ->
  fst (run client (executeEvalLua JSON_parse args))
  = Returned (failure "Error: code is required. Provide Lua code to execute.")
  <-> match Args.code args with
      | Some code => onlyWhiteSpace code = true
      | None => True
      end.
Proof.
  intros Hpid Hlen. split.
  - intros Hrun.
    destruct (Args.code args) as [code |] eqn:Hcode; [| exact I].
    destruct (onlyWhiteSpace code) eqn:Hblank; [reflexivity | exfalso].
    assert (Hends :
      ends (fun envelope =>
              envelope <> failure "Error: code is required. Provide Lua code to execute.")
           False (executeEvalLua (Signer := Signer) JSON_parse args)).
    { unfold executeEvalLua.
      rewrite Hpid, (guard_accepts _ Hlen), Hcode, (code_guard_accepts code Hblank).
      apply ends_tryCatch;
        repeat (cbn [ends tryCatch Async.bind await];
                match goal with
                | |- forall _ : Settled _, _ => intros [? | ?]
                | |- forall _ : JS.Thrown, _ => intros ?
                | |- ends _ _ (if ?b then _ else _) => destruct b
                | |- ends _ _ (match ?x with _ => _ end) => destruct x
                | |- True => exact I
                | |- _ <> _ => unfold failure; intros Heq; discriminate Heq
                end). }
    destruct (ends_run _ _ Hends client) as [envelope [Hreturned Hother]].
    rewrite Hrun in Hreturned. injection Hreturned as <-.
    apply Hother. reflexivity.
  - intros Hblank.
    unfold executeEvalLua. rewrite Hpid, (guard_accepts _ Hlen).
    destruct (Args.code args) as [code |]; [| reflexivity].
    simpl JS.ToText. rewrite (trim_onlyWhiteSpace code Hblank), orb_true_r.
    reflexivity.
Qed.

(** X17 at a call whose code is an ideographic space, a byte order mark, a
    line separator, a space and a tab. *)
Lemma unicode_blank_is_no_code :
  fst (run (Sample.client Sample.noMessages [])
           (executeEvalLua Sample.JSON_parse
              (Scenario.evaluate AO_CONFIG.CHAMBER_PID Scenario.blankCode)))
  = Returned (failure "Error: code is required. Provide Lua code to execute.").
Proof.
  refine (proj2 (code_required_iff_blank Sample.JSON_parse
                   (Sample.client Sample.noMessages [])
                   (Scenario.evaluate AO_CONFIG.CHAMBER_PID Scenario.blankCode)
                   AO_CONFIG.CHAMBER_PID _ _) _).
  - reflexivity.
  - reflexivity.
  - reflexivity.
Defined.

(** Code that holds a zero width space (U+200B), which [trim] keeps, is code:
    it is submitted as it is. *)
Example zero_width_space_is_code :
  snd (run (Sample.client Sample.noMessages [])
           (executeEvalLua Sample.JSON_parse
              (Scenario.evaluate AO_CONFIG.CHAMBER_PID [32; 8203; 32]%N)))
  = [Invoked (createDataItemSigner "{}");
     Invoked (message AO_CONFIG.CHAMBER_PID tt
                      [{| name := "Action"; value := Some "Eval" |}] [32; 8203; 32]%N);
     Invoked (result AO_CONFIG.CHAMBER_PID "MSG")].
Proof. reflexivity. Qed.

(** The code units [trim] removes, and some it keeps: next line (U+0085),
    the Mongolian vowel separator (U+180E), the zero width space (U+200B),
    and a letter. *)
Example isWhiteSpace_code_units :
  forallb JS.isWhiteSpace
    [9; 10; 11; 12; 13; 32; 160; 5760; 8192; 8193; 8194; 8195; 8196; 8197; 8198;
     8199; 8200; 8201; 8202; 8232; 8233; 8239; 8287; 12288; 65279]%N = true
  /\ existsb JS.isWhiteSpace [8; 14; 133; 6158; 8203; 8234; 65; 65278]%N = false.
Proof. split; reflexivity. Qed.
